(** * portfolio-builder: rendering and context merging of [main.go]

    A shallow embedding of [main.go]. First the part that runs once the
    template has been downloaded: [copyAssets], [generatePages],
    [generateCollections] and the tail of [main] that calls them; then the
    head of the program: [downloadFile], [downloadTemplateFromGitHub],
    [readConfig], [validateConfig] and the two modes of [main] ([getArgs]
    is the flag parser; its three results are arguments here). Line numbers
    are those of the
    first copy of [main.go]; the second copy differs in comments, in the
    usage text and in one more line logged at the end of [main].

    - Dynamic configuration values ([interface{}] as produced by the YAML
      decoder) are a tagged variant, [Value]; Go maps with string keys are
      [gmap string Value].
    - The file system and the logger are an explicit [World] that every
      operation threads through. The deferred [f.Close()] of the two
      generators does not change what a file holds and is left out.
    - A Go function returning [error] yields a [Result]: [RNil], [RError]
      or, for a failed one-result type conversion, [RPanic].
    - The order in which [range] enumerates a Go map is unspecified, so the
      enumeration is an explicit argument of the two generators.
    - The template engine and the operating system are an interface,
      [Platform]; the statements hold for all of its instances, and
      [Sample.platform] is one to run the program on. *)

From Stdlib Require Import ZArith Ascii.
From stdpp Require Import gmap strings list fin_maps pretty.

Local Open Scope string_scope.
Local Open Scope list_scope.
Set Warnings "-register-all".

(** ** Dynamic values *)

Inductive Value : Type :=
| VNil
| VBool (b : bool)
| VInt (n : Z)
| VString (s : string)
| VSlice (l : list Value)              (* []interface{} *)
| VMap (m : gmap string Value)         (* map[string]interface{} *)
| VOther (ty : string).                (* any other dynamic type, by name *)

(** The dynamic type as the runtime prints it in a failed conversion. *)
Definition typeName (v : Value) : string :=
  match v with
  | VNil => "nil"
  | VBool _ => "bool"
  | VInt _ => "int"
  | VString _ => "string"
  | VSlice _ => "[]interface {}"
  | VMap _ => "map[string]interface {}"
  | VOther ty => ty
  end.

(** [v.(map[string]interface{})] in its two-result form. *)
Definition asMap (v : Value) : option (gmap string Value) :=
  match v with VMap m => Some m | _ => None end.

(** [v.([]interface{})] in its two-result form. *)
Definition asSlice (v : Value) : option (list Value) :=
  match v with VSlice l => Some l | _ => None end.

(** [v.(string)] in its two-result form. *)
Definition asString (v : Value) : option string :=
  match v with VString s => Some s | _ => None end.

(** The message of the runtime panic raised by the one-result form
    [v.(map[string]interface{})] on a value of another type. *)
Definition conversionPanic (v : Value) : string :=
  "interface conversion: interface {} is " +:+ typeName v +:+
  ", not map[string]interface {}".

(** [m[k]] on a Go map: the zero value (nil interface) when absent. *)
Definition index (m : gmap string Value) (k : string) : Value :=
  default VNil (m !! k).

(** ** Configuration *)

Record Config : Type := {
  TemplateId : string;
  Base : option (gmap string Value);        (* nil when the field is absent *)
  Pages : gmap string Value;                (* a nil map ranges as the empty one *)
  Collections : option (gmap string Value)  (* nil when the field is absent *)
}.

(** ** World and results *)

Record World : Type := {
  files : gmap string string;   (* regular files: path to content *)
  dirs : gset string;           (* directories *)
  logs : list string            (* lines printed by the logger *)
}.

Inductive Result : Type :=
| RNil
| RError (msg : string)
| RPanic (msg : string).

Definition writeFile (path content : string) (w : World) : World :=
  {| files := <[path := content]> (files w); dirs := dirs w; logs := logs w |}.

Definition logPrintln (line : string) (w : World) : World :=
  {| files := files w; dirs := dirs w; logs := (logs w ++ [line]) |}.

(** A [for ... range] loop whose body may [continue] (the body returns
    [RNil]) or leave the function with an error or a panic. *)
Fixpoint forEach {A : Type} (body : A → World → World * Result)
    (l : list A) (w : World) : World * Result :=
  match l with
  | [] => (w, RNil)
  | x :: l' =>
      match body x w with
      | (w', RNil) => forEach body l' w'
      | stop => stop
      end
  end.

(** What a run may change between two worlds, [paths] being the files it
    may write: no directory, the log only by adding to it. *)
Definition mayChange (paths : list string) (w0 w1 : World) : Prop :=
  dirs w1 = dirs w0
  ∧ logs w0 `prefix_of` logs w1
  ∧ ∀ q, q ∉ paths → files w1 !! q = files w0 !! q.

(** The effect on the files of writing [ws], first to last. *)
Definition applyWrites (ws : list (string * string)) (fs : gmap string string)
    : gmap string string :=
  foldl (λ fs kv, <[kv.1 := kv.2]> fs) fs ws.

(** The blocks of writes of the elements of [l] go to separate paths. *)
Definition separate {A : Type} (block : A → list (string * string))
    (l : list A) : Prop :=
  ∀ i j x y p, i ≠ j → l !! i = Some x → l !! j = Some y →
    p ∈ (block x).*1 → p ∉ (block y).*1.

(** ** The platform: template engine and operating system *)

Class Platform : Type := {
  (** a parsed template set, [*template.Template] *)
  Template : Type;
  (** parse the content of one file into the set built so far *)
  tmpl_Parse : option Template → string → string → Template + string;
  (** [tmpl.Execute(f, data)]: what was written to [f], and the error *)
  tmpl_Execute : Template → Value → string * option string;
  (** [tmpl.ExecuteTemplate(f, name, data)] *)
  tmpl_ExecuteTemplate : Template → string → Value → string * option string;
  filepath_Join : string → string → string;
  filepath_Rel : string → string → string + string;
  (** [filepath.WalkDir(root, fn)], [fn] receiving path, [d.IsDir()], error *)
  filepath_WalkDir :
    string → (string → bool → option string → World → World * option string) →
    World → World * option string;
  (** the error of [os.Create], if it fails *)
  os_Create_error : World → string → option string;
  (** the error of [os.WriteFile], if it fails *)
  os_WriteFile_error : World → string → option string;
  os_MkdirAll : string → World → World * option string;
  os_RemoveAll : string → World → World;
  (** [os.IsNotExist] of the error of [os.Stat] *)
  os_Stat_IsNotExist : World → string → bool
}.

Section Program.
Context `{Platform}.

(** [os.ReadFile]. *)
Definition os_ReadFile (fs : gmap string string) (path : string) : string + string :=
  match fs !! path with
  | Some content => inl content
  | None => inr ("open " +:+ path +:+ ": no such file or directory")
  end.

(** [os.Create]: the file exists and is empty afterwards. *)
Definition os_Create (path : string) (w : World) : World + string :=
  match os_Create_error w path with
  | Some err => inr err
  | None => inl (writeFile path EmptyString w)
  end.

(** [os.WriteFile]. *)
Definition os_WriteFile (path data : string) (w : World) : World * option string :=
  match os_WriteFile_error w path with
  | Some err => (w, Some err)
  | None => (writeFile path data w, None)
  end.

(** [template.ParseFiles]: the files are read and parsed one after the
    other into one set; the first failure is returned. *)
Fixpoint parseFiles (fs : gmap string string) (t : option Template)
    (filenames : list string) : option Template + string :=
  match filenames with
  | [] => inl t
  | filename :: rest =>
      match os_ReadFile fs filename with
      | inr err => inr err
      | inl s =>
          match tmpl_Parse t filename s with
          | inr err => inr err
          | inl t' => parseFiles fs (Some t') rest
          end
      end
  end.

Definition ParseFiles (fs : gmap string string) (filenames : list string)
    : Template + string :=
  match parseFiles fs None filenames with
  | inl (Some t) => inl t
  | inl None => inr "html/template: no files named in call to ParseFiles"
  | inr err => inr err
  end.

(** Lines 144-149, and again 208-213: the template is parsed together with
    [base.html], listed first, exactly when [config.Base] is not nil. *)
Definition parseTemplates (config : Config) (templateDir templatePath : string)
    (fs : gmap string string) : Template + string :=
  match Base config with
  | Some _ =>
      let basePath := filepath_Join templateDir "base.html" in
      ParseFiles fs [basePath; templatePath]
  | None => ParseFiles fs [templatePath]
  end.

(** *** [generatePages] *)

(** Lines 165-173: the map literal holding ["base"], then the page's keys
    copied over it when the page value is a map. *)
Definition pageData (base : gmap string Value) (page : Value) : gmap string Value :=
  let data := {[ "base" := VMap base ]} in
  match asMap page with
  | Some pageCtx => map_fold (λ k v data, <[k := v]> data) data pageCtx
  | None => data
  end.

(** Lines 164-178: the execution step of a page. *)
Definition executePage (config : Config) (tmpl : Template) (pageName : string)
    : string * option string :=
  match Base config with
  | Some base =>
      tmpl_ExecuteTemplate tmpl "base.html"
        (VMap (pageData base (index (Pages config) pageName)))
  | None => tmpl_Execute tmpl (index (Pages config) pageName)
  end.

(** The body of the loop of [generatePages], for one page name. *)
Definition generatePage (config : Config) (templateDir outputDir : string)
    (pageName : string) (w : World) : World * Result :=
  let templatePath := filepath_Join templateDir (pageName +:+ ".html") in
  match parseTemplates config templateDir templatePath (files w) with
  | inr err =>
      (w, RError ("error parsing templates for page " +:+ pageName +:+ ": " +:+ err))
  | inl tmpl =>
      let outputFile := filepath_Join outputDir (pageName +:+ ".html") in
      match os_Create outputFile w with
      | inr err =>
          (w, RError ("error creating output file " +:+ outputFile +:+ ": " +:+ err))
      | inl w1 =>
          let '(written, err) := executePage config tmpl pageName in
          let w2 := writeFile outputFile written w1 in
          match err with
          | Some e =>
              (w2, RError ("error executing template for page " +:+ pageName
                           +:+ ": " +:+ e))
          | None => (logPrintln ("Generated page: " +:+ outputFile) w2, RNil)
          end
      end
  end.

(** [generatePages], the page names enumerated in the order [pageNames]. *)
Definition generatePages (config : Config) (templateDir outputDir : string)
    (pageNames : list string) (w : World) : World * Result :=
  forEach (generatePage config templateDir outputDir) pageNames w.

(** *** [generateCollections] *)

(** Lines 241-249. *)
Definition itemData (base : gmap string Value) (item : Value) : gmap string Value :=
  let data := {[ "base" := VMap base ]} in
  match asMap item with
  | Some pageCtx => map_fold (λ k v data, <[k := v]> data) data pageCtx
  | None => data
  end.

(** Lines 240-253: the execution step of an item. *)
Definition executeItem (config : Config) (tmpl : Template) (item : Value)
    : string * option string :=
  match Base config with
  | Some base => tmpl_ExecuteTemplate tmpl "base.html" (VMap (itemData base item))
  | None => tmpl_Execute tmpl item
  end.

(** The body of the inner loop, for one item. The conversion of [item] on
    line 221 is the one-result form: it panics on a value that is no map. *)
Definition generateItem (config : Config) (outputDir : string) (tmpl : Template)
    (item : Value) (w : World) : World * Result :=
  match item with
  | VMap fields =>
      match fields !! "output_file" with
      | None => (w, RNil)
      | Some outputFile =>
          match asString outputFile with
          | None => (w, RNil)
          | Some outputFileName =>
              let outputPath := filepath_Join outputDir outputFileName in
              match os_Create outputPath w with
              | inr err =>
                  (w, RError ("error creating output file " +:+ outputPath
                              +:+ ": " +:+ err))
              | inl w1 =>
                  let '(written, err) := executeItem config tmpl item in
                  let w2 := writeFile outputPath written w1 in
                  match err with
                  | Some e =>
                      (w2, RError ("error executing template for item "
                                   +:+ outputFileName +:+ ": " +:+ e))
                  | None =>
                      (logPrintln ("Generated collection item: " +:+ outputPath) w2,
                       RNil)
                  end
              end
          end
      end
  | _ => (w, RPanic (conversionPanic item))
  end.

(** The body of the outer loop, for one collection. The conversion of
    [collectionData] on line 197 is the one-result form as well. *)
Definition generateCollection (config : Config) (templateDir outputDir : string)
    (entry : string * Value) (w : World) : World * Result :=
  let '(collectionName, collectionData) := entry in
  match collectionData with
  | VMap fields =>
      match asSlice (index fields "items") with
      | None => (w, RNil)
      | Some itemsList =>
          let templatePath := filepath_Join templateDir (collectionName +:+ ".html") in
          match parseTemplates config templateDir templatePath (files w) with
          | inr err =>
              (w, RError ("error parsing templates for collection "
                          +:+ collectionName +:+ ": " +:+ err))
          | inl tmpl => forEach (generateItem config outputDir tmpl) itemsList w
          end
      end
  | _ => (w, RPanic (conversionPanic collectionData))
  end.

(** [generateCollections], the collections enumerated in the order [entries]. *)
Definition generateCollections (config : Config) (templateDir outputDir : string)
    (entries : list (string * Value)) (w : World) : World * Result :=
  match Collections config with
  | None => (w, RNil)
  | Some _ => forEach (generateCollection config templateDir outputDir) entries w
  end.

(** *** [copyAssets] *)

(** The function literal handed to [filepath.WalkDir]. *)
Definition copyEntry (srcFolder dstFolder : string)
    (path : string) (isDir : bool) (err : option string) (w : World)
    : World * option string :=
  match err with
  | Some e => (w, Some e)
  | None =>
      match filepath_Rel srcFolder path with
      | inr e => (w, Some e)
      | inl relPath =>
          let dstPath := filepath_Join dstFolder relPath in
          if isDir then os_MkdirAll dstPath w
          else
            match os_ReadFile (files w) path with
            | inr e => (w, Some e)
            | inl data => os_WriteFile dstPath data w
            end
      end
  end.

Definition copyFolder (templateDir outputDir : string) (folder : string)
    (w : World) : World * Result :=
  let srcFolder := filepath_Join templateDir folder in
  if os_Stat_IsNotExist w srcFolder then (w, RNil)
  else
    let dstFolder := filepath_Join outputDir folder in
    let '(w', err) := filepath_WalkDir srcFolder (copyEntry srcFolder dstFolder) w in
    match err with
    | None => (logPrintln ("Copied folder: " +:+ dstFolder) w', RNil)
    | Some _ => (w', RNil)
    end.

Definition copyAssets (templateDir outputDir : string) (w : World) : World * Result :=
  let assetFolders := ["assets"] in
  match forEach (copyFolder templateDir outputDir) assetFolders w with
  | (w', _) => (w', RNil)
  end.

(** *** [main], from the creation of the output directory on *)

Inductive Exit : Type :=
| Success                 (* main returns *)
| Fatal (msg : string)    (* log.Fatalf: the message is logged, exit status 1 *)
| Crash (msg : string).   (* an unrecovered panic *)

Definition logFatalf (msg : string) (w : World) : World * Exit :=
  (logPrintln msg w, Fatal msg).

(** An unrecovered panic runs the deferred [os.RemoveAll(templateDir)]. *)
Definition crash (templateRoot msg : string) (w : World) : World * Exit :=
  (os_RemoveAll templateRoot w, Crash msg).

Definition main (config : Config) (templateDir outputDir : string)
    (pageNames : list string) (entries : list (string * Value)) (w : World)
    : World * Exit :=
  match os_MkdirAll outputDir w with
  | (w, Some err) =>
      logFatalf ("Error creating output directory. Received error " +:+ err) w
  | (w, None) =>
      match copyAssets (templateDir +:+ "/pages") outputDir w with
      | (w, RError err) => logFatalf ("Error copying assets. Received error " +:+ err) w
      | (w, RPanic msg) => crash templateDir msg w
      | (w, RNil) =>
          match generatePages config (templateDir +:+ "/pages") outputDir pageNames w with
          | (w, RError err) =>
              logFatalf ("Error generating pages. Received error " +:+ err) w
          | (w, RPanic msg) => crash templateDir msg w
          | (w, RNil) =>
              match generateCollections config (templateDir +:+ "/pages") outputDir
                      entries w with
              | (w, RError err) =>
                  logFatalf ("Error generating collections. Received error " +:+ err) w
              | (w, RPanic msg) => crash templateDir msg w
              | (w, RNil) =>
                  (os_RemoveAll templateDir
                     (logPrintln "Portfolio generation completed successfully!" w),
                   Success)
              end
          end
      end
  end.

(** *** What the two generators read and write *)

(** The file a page is written to (line 156). *)
Definition pageOutput (outputDir pageName : string) : string :=
  filepath_Join outputDir (pageName +:+ ".html").

(** The file an item is written to (lines 221-232), if it names one. *)
Definition itemOutput (outputDir : string) (item : Value) : option string :=
  fields ← asMap item;
  outputFile ← fields !! "output_file";
  outputFileName ← asString outputFile;
  Some (filepath_Join outputDir outputFileName).

(** The items of a collection (line 197), none if it has not that shape. *)
Definition collectionItems (collectionData : Value) : list Value :=
  match asMap collectionData with
  | Some fields => default [] (asSlice (index fields "items"))
  | None => []
  end.

Definition collectionOutputs (outputDir : string) (collectionData : Value)
    : list string :=
  omap (itemOutput outputDir) (collectionItems collectionData).

(** The files [parseTemplates] names for a page or a collection. *)
Definition templatePaths (config : Config) (templateDir name : string) : list string :=
  match Base config with
  | Some _ =>
      [filepath_Join templateDir "base.html";
       filepath_Join templateDir (name +:+ ".html")]
  | None => [filepath_Join templateDir (name +:+ ".html")]
  end.

Definition templatesRead (config : Config) (templateDir : string)
    (pageNames : list string) (entries : list (string * Value)) : list string :=
  (pageNames ++ entries.*1) ≫= templatePaths config templateDir.

Definition outputsWritten (outputDir : string)
    (pageNames : list string) (entries : list (string * Value)) : list string :=
  ((pageOutput outputDir <$> pageNames)
   ++ (entries ≫= λ entry, collectionOutputs outputDir entry.2)).

(** What rendering a page writes when it succeeds, the templates being
    read from [fs0]. *)
Definition pageWrites (config : Config) (templateDir outputDir : string)
    (fs0 : gmap string string) (pageName : string) : list (string * string) :=
  match parseTemplates config templateDir
          (filepath_Join templateDir (pageName +:+ ".html")) fs0 with
  | inl tmpl => [(pageOutput outputDir pageName, (executePage config tmpl pageName).1)]
  | inr _ => []
  end.

Definition itemWrite (config : Config) (outputDir : string) (tmpl : Template)
    (item : Value) : option (string * string) :=
  path ← itemOutput outputDir item;
  Some (path, (executeItem config tmpl item).1).

(** What rendering a collection writes when it succeeds, item after item. *)
Definition collectionWrites (config : Config) (templateDir outputDir : string)
    (fs0 : gmap string string) (entry : string * Value) : list (string * string) :=
  match parseTemplates config templateDir
          (filepath_Join templateDir (entry.1 +:+ ".html")) fs0 with
  | inl tmpl => omap (itemWrite config outputDir tmpl) (collectionItems entry.2)
  | inr _ => []
  end.

(** The line logged for a rendered item (line 259). *)
Definition itemLine (outputPath : string) : string :=
  "Generated collection item: " +:+ outputPath.

(** No path of the first list is in the second. *)
Definition apart (l1 l2 : list string) : Prop := Forall (λ p, p ∉ l2) l1.

#[global] Instance apart_dec (l1 l2 : list string) : Decision (apart l1 l2).
Proof. unfold apart. apply _. Defined.

(** The pages, and the collections, of a configuration in some order. *)
Definition enumeratesPages (config : Config) (pageNames : list string) : Prop :=
  pageNames ≡ₚ (map_to_list (Pages config)).*1.

Definition enumeratesCollections (config : Config)
    (entries : list (string * Value)) : Prop :=
  entries ≡ₚ map_to_list (default ∅ (Collections config)).

(** Order-independence as the specification words it: two successful runs
    that differ in the enumeration of the pages and of the collections leave
    the same files. *)
Definition orderIndependent : Prop :=
  ∀ (config : Config) (templateDir outputDir : string)
    (pageNames1 pageNames2 : list string)
    (entries1 entries2 : list (string * Value))
    (w w1 w1' w2 w2' : World),
    enumeratesPages config pageNames1 → enumeratesPages config pageNames2 →
    enumeratesCollections config entries1 → enumeratesCollections config entries2 →
    generatePages config templateDir outputDir pageNames1 w = (w1, RNil) →
    generateCollections config templateDir outputDir entries1 w1 = (w1', RNil) →
    generatePages config templateDir outputDir pageNames2 w = (w2, RNil) →
    generateCollections config templateDir outputDir entries2 w2 = (w2', RNil) →
    files w1' = files w2'.

End Program.

(** ** A small platform to run the program on

    Paths are joined with a slash, a template is the list of the files parsed
    into it under their base names, and a handful of template texts are
    understood: [{{.title}}], [{{.base.site}}: {{.title}}], a text whose
    execution fails after it has written its first bytes, and literal text. *)

Module Sample.

Definition field (k : string) (v : Value) : Value :=
  match v with VMap m => index m k | _ => VNil end.

Definition text (v : Value) : string :=
  match v with VString s => s | _ => EmptyString end.

Definition render (content : string) (data : Value) : string * option string :=
  if String.eqb content "{{.title}}" then (text (field "title" data), None)
  else if String.eqb content "{{.base.site}}: {{.title}}" then
    (text (field "site" (field "base" data)) +:+ ": " +:+ text (field "title" data),
     None)
  else if String.eqb content "<h1>{{.title.x}}" then
    ("<h1>", Some "can't evaluate field x in type interface {}")
  else (content, None).

Fixpoint baseOf (path acc : string) : string :=
  match path with
  | EmptyString => acc
  | String c rest =>
      if Ascii.eqb c "/"%char then baseOf rest EmptyString
      else baseOf rest (acc +:+ String c EmptyString)
  end.

Definition parse (t : option (list (string * string))) (filename content : string)
    : list (string * string) + string :=
  if String.eqb content "{{" then
    inr ("template: " +:+ baseOf filename EmptyString +:+ ":1: unclosed action")
  else inl (default [] t ++ [(baseOf filename EmptyString, content)]).

Definition execute (t : list (string * string)) (data : Value)
    : string * option string :=
  match t with
  | (_, content) :: _ => render content data
  | [] => (EmptyString, Some "template: incomplete or empty template")
  end.

Fixpoint executeTemplate (t : list (string * string)) (name : string) (data : Value)
    : string * option string :=
  match t with
  | (n, content) :: rest =>
      if String.eqb n name then render content data
      else executeTemplate rest name data
  | [] => (EmptyString, Some ("html/template: " +:+ name +:+ " is undefined"))
  end.

(** As [filepath.Join] cleans its result, a name that is [.] adds nothing
    and a leading [./] of the name is dropped. *)
Definition join (dir name : string) : string :=
  if String.eqb name "." then dir
  else if String.prefix "./" name then
    dir +:+ "/" +:+ String.substring 2 (String.length name - 2) name
  else dir +:+ "/" +:+ name.

Definition rel (base target : string) : string + string :=
  if String.eqb base target then inl "."
  else if String.prefix (base +:+ "/") target then
    inl (String.substring (S (String.length base))
           (String.length target - S (String.length base)) target)
  else inr ("Rel: can't make " +:+ target +:+ " relative to " +:+ base).

Definition mkdirAll (path : string) (w : World) : World * option string :=
  match files w !! path with
  | Some _ => (w, Some ("mkdir " +:+ path +:+ ": not a directory"))
  | None =>
      ({| files := files w; dirs := {[ path ]} ∪ dirs w; logs := logs w |}, None)
  end.

Definition under (root path : string) : bool :=
  String.eqb root path || String.prefix (root +:+ "/") path.

Definition removeAll (path : string) (w : World) : World :=
  {| files := filter (λ kv, under path kv.1 = false) (files w);
     dirs := filter (λ d, under path d = false) (dirs w);
     logs := logs w |}.

(** Directories first, then files; the walk stops at the first error. *)
Fixpoint walk (fn : string → bool → option string → World → World * option string)
    (entries : list (string * bool)) (w : World) : World * option string :=
  match entries with
  | [] => (w, None)
  | (path, isDir) :: rest =>
      match fn path isDir None w with
      | (w', None) => walk fn rest w'
      | stop => stop
      end
  end.

Definition walkDir (root : string)
    (fn : string → bool → option string → World → World * option string)
    (w : World) : World * option string :=
  let ds := filter (λ d, under root d = true) (elements (dirs w)) in
  let fs := filter (λ f, under root f = true) (map fst (map_to_list (files w))) in
  match ds, fs with
  | [], [] => fn root false (Some ("lstat " +:+ root +:+ ": no such file or directory")) w
  | _, _ => walk fn (map (λ d, (d, true)) ds ++ map (λ f, (f, false)) fs) w
  end.

Definition createError (w : World) (path : string) : option string :=
  if bool_decide (path ∈ dirs w) then Some ("open " +:+ path +:+ ": is a directory")
  else None.

Definition statIsNotExist (w : World) (path : string) : bool :=
  bool_decide (files w !! path = None) && bool_decide (path ∉ dirs w).

Definition platform : Platform := {|
  Template := list (string * string);
  tmpl_Parse := parse;
  tmpl_Execute := execute;
  tmpl_ExecuteTemplate := executeTemplate;
  filepath_Join := join;
  filepath_Rel := rel;
  filepath_WalkDir := walkDir;
  os_Create_error := createError;
  os_WriteFile_error := createError;
  os_MkdirAll := mkdirAll;
  os_RemoveAll := removeAll;
  os_Stat_IsNotExist := statIsNotExist
|}.

Definition world (fs : list (string * string)) (ds : list string) : World :=
  {| files := list_to_map fs; dirs := list_to_set ds; logs := [] |}.

Definition obj (fields : list (string * Value)) : Value := VMap (list_to_map fields).

(** The first scenario of the specification: one page under a base. *)
Definition siteConfig : Config := {|
  TemplateId := "0001";
  Base := Some {[ "site" := VString "MySite" ]};
  Pages := {[ "index" := obj [("title", VString "Hi")] ]};
  Collections := None
|}.

Definition siteWorld : World :=
  world [("tpl/pages/base.html", "{{.base.site}}: {{.title}}");
         ("tpl/pages/index.html", "{{define x}}{{end}}")]
        ["tpl"; "tpl/pages"; "out"].

(** A page that carries a field named like the reserved key. *)
Definition shadowConfig : Config := {|
  TemplateId := "0001";
  Base := Some {[ "site" := VString "MySite" ]};
  Pages := {[ "index" := obj [("title", VString "Hi"); ("base", VString "mine")] ]};
  Collections := None
|}.

(** No base; one page whose value is a mapping, one whose value is a scalar. *)
Definition plainConfig : Config := {|
  TemplateId := "0001";
  Base := None;
  Pages := {[ "index" := obj [("title", VString "Hi")]; "about" := VString "me" ]};
  Collections := None
|}.

Definition plainWorld : World :=
  world [("tpl/pages/index.html", "{{.title}}")] ["tpl"; "tpl/pages"; "out"].

(** A base, and a page whose value is a scalar. *)
Definition scalarConfig : Config := {|
  TemplateId := "0001";
  Base := Some {[ "site" := VString "MySite" ]};
  Pages := {[ "about" := VString "me" ]};
  Collections := None
|}.

(** A collection without a value, as [posts:] with nothing after it decodes. *)
Definition nullCollectionConfig : Config := {|
  TemplateId := "0001";
  Base := None;
  Pages := ∅;
  Collections := Some {[ "posts" := VNil ]}
|}.

(** A collection whose second item is a bare string. *)
Definition scalarItemConfig : Config := {|
  TemplateId := "0001";
  Base := None;
  Pages := ∅;
  Collections :=
    Some {[ "posts" :=
              obj [("items",
                    VSlice [obj [("output_file", VString "post1.html");
                                 ("title", VString "A")];
                            VString "hello"])] ]}
|}.

(** The second scenario of the specification: the second item has no
    [output_file]; a third item, with one, follows it. *)
Definition postsConfig : Config := {|
  TemplateId := "0001";
  Base := None;
  Pages := ∅;
  Collections :=
    Some {[ "posts" :=
              obj [("items",
                    VSlice [obj [("output_file", VString "post1.html");
                                 ("title", VString "A")];
                            obj [("title", VString "B")];
                            obj [("output_file", VString "post3.html");
                                 ("title", VString "C")]])] ]}
|}.

Definition postsWorld : World :=
  world [("tpl/pages/posts.html", "{{.title}}")] ["tpl"; "tpl/pages"; "out"].

(** A template with an asset, and an output directory in which a regular
    file already has the name of the folder to create. *)
Definition blockedAssetsWorld : World :=
  world [("tpl/pages/base.html", "{{.base.site}}: {{.title}}");
         ("tpl/pages/index.html", "{{define x}}{{end}}");
         ("tpl/pages/assets/site.css", "body {}");
         ("out/assets", "not a folder")]
        ["tpl"; "tpl/pages"; "tpl/pages/assets"; "out"].


(** Two collections whose items name the same output file. *)
Definition collidingConfig : Config := {|
  TemplateId := "0001";
  Base := None;
  Pages := ∅;
  Collections :=
    Some {[ "posts" :=
              obj [("items", VSlice [obj [("output_file", VString "x.html");
                                          ("title", VString "A")]])];
            "talks" :=
              obj [("items", VSlice [obj [("output_file", VString "x.html");
                                          ("title", VString "B")]])] ]}
|}.

Definition collidingWorld : World :=
  world [("tpl/pages/posts.html", "{{.title}}");
         ("tpl/pages/talks.html", "{{.title}}")]
        ["tpl"; "tpl/pages"; "out"].

(** Two pages under a base and two collections, every output its own file. *)
Definition fullConfig : Config := {|
  TemplateId := "0001";
  Base := Some {[ "site" := VString "MySite" ]};
  Pages := {[ "index" := obj [("title", VString "Home")];
              "about" := obj [("title", VString "About")] ]};
  Collections :=
    Some {[ "posts" :=
              obj [("items", VSlice [obj [("output_file", VString "post1.html");
                                          ("title", VString "A")];
                                     obj [("output_file", VString "post2.html");
                                          ("title", VString "B")]])];
            "talks" :=
              obj [("items", VSlice [obj [("output_file", VString "talk1.html");
                                          ("title", VString "T")]])] ]}
|}.

Definition fullWorld : World :=
  world [("tpl/pages/base.html", "{{.base.site}}: {{.title}}");
         ("tpl/pages/index.html", "{{define x}}{{end}}");
         ("tpl/pages/about.html", "{{define x}}{{end}}");
         ("tpl/pages/posts.html", "{{define x}}{{end}}");
         ("tpl/pages/talks.html", "{{define x}}{{end}}")]
        ["tpl"; "tpl/pages"; "out"].

(** Two page names that are cleaned to the same path. *)
Definition dotPagesConfig : Config := {|
  TemplateId := "0001";
  Base := None;
  Pages := {[ "a" := obj [("title", VString "one")];
              "./a" := obj [("title", VString "two")] ]};
  Collections := None
|}.

Definition dotPagesWorld : World :=
  world [("tpl/pages/a.html", "{{.title}}")] ["tpl"; "tpl/pages"; "out"].

(** A page named like the base template, rendered into the directory the
    templates are read from. *)
Definition inPlaceConfig : Config := {|
  TemplateId := "0001";
  Base := Some {[ "site" := VString "MySite" ]};
  Pages := {[ "base" := obj [("title", VString "B")];
              "index" := obj [("title", VString "Home")] ]};
  Collections := None
|}.

Definition inPlaceWorld : World :=
  world [("site/base.html", "{{.base.site}}: {{.title}}");
         ("site/index.html", "{{define x}}{{end}}")]
        ["site"].

(** A page that sets the title, then a failing one. *)
Definition failingWorld : World :=
  world [("tpl/pages/index.html", "<h1>{{.title.x}}");
         ("tpl/pages/posts.html", "<h1>{{.title.x}}")]
        ["tpl"; "tpl/pages"; "out"].

End Sample.

(** ** The head of [main.go]: arguments, configuration, download

    What runs before the output directory is created: [downloadFile],
    [downloadTemplateFromGitHub], [readConfig], [validateConfig] and the
    head of [main]. [log.Fatalf] inside these functions ends the process, so
    each of them yields an [Outcome]. The network and the decoders are a
    second interface, [Services]. *)

Inductive Outcome (A : Type) : Type :=
| Returned (a : A)
| Exited (msg : string).   (* log.Fatalf: the message is logged, exit status 1 *)
Arguments Returned {A} a.
Arguments Exited {A} msg.

Definition fatalf {A : Type} (msg : string) (w : World) : World * Outcome A :=
  (logPrintln msg w, Exited msg).

(** A [for ... range] loop whose body may end the process. *)
Fixpoint forEachOrExit {A : Type} (body : A → World → World * Outcome unit)
    (l : list A) (w : World) : World * Outcome unit :=
  match l with
  | [] => (w, Returned ())
  | x :: l' =>
      match body x w with
      | (w', Returned _) => forEachOrExit body l' w'
      | stop => stop
      end
  end.

(** [strings.HasPrefix] and [strings.TrimPrefix]: what is left of [s]
    behind [prefix], if [s] starts with it. *)
Fixpoint stripPrefix (prefix s : string) : option string :=
  match prefix with
  | EmptyString => Some s
  | String a prefix' =>
      match s with
      | EmptyString => None
      | String b s' => if Ascii.eqb a b then stripPrefix prefix' s' else None
      end
  end.

Definition HasPrefix (s prefix : string) : bool :=
  bool_decide (is_Some (stripPrefix prefix s)).

Definition TrimPrefix (s prefix : string) : string :=
  default s (stripPrefix prefix s).

Record GitHubTreeItem : Type := {
  Path : string;
  Type_ : string     (* the field [Type] *)
}.

(** An HTTP response: the status, the bytes of the body that arrive, and
    the error that ends the body early, if any. *)
Record Response : Type := {
  StatusCode : Z;
  Body : string;
  BodyError : option string
}.

Class Services : Type := {
  http_Get : string → World → Response + string;
  (** [json.NewDecoder(resp.Body).Decode(&tree)], giving [tree.Tree] *)
  json_DecodeTree : Response → list GitHubTreeItem + string;
  yaml_Unmarshal : string → Config + string;
  json_Marshal : Config → string + string;
  (** [gojsonschema.Validate]: the descriptions of [result.Errors()], in
      order; [result.Valid()] holds when there are none *)
  gojsonschema_Validate : string → string → World → list string + string;
  os_MkdirTemp : string → string → World → (string * World) + string;
  filepath_Dir : string → string
}.

Section Head.
Context `{Platform} `{Services}.

(** Lines 375-396. *)
Definition downloadFile (url filepath : string) (w : World) : World * Outcome unit :=
  match http_Get url w with
  | inr err => fatalf ("Failed to download file: " +:+ url +:+ ", error: " +:+ err) w
  | inl resp =>
      if bool_decide (StatusCode resp ≠ 200%Z) then
        fatalf ("Failed to download file: " +:+ url +:+ ", status code: "
                +:+ pretty (StatusCode resp)) w
      else
        match os_Create filepath w with
        | inr err =>
            fatalf ("Failed to create file: " +:+ filepath +:+ ", error: " +:+ err) w
        | inl w1 =>
            let w2 := writeFile filepath (Body resp) w1 in
            match BodyError resp with
            | Some err =>
                fatalf ("Failed to copy response body to file: " +:+ filepath
                        +:+ ", error: " +:+ err) w2
            | None => (w2, Returned ())
            end
        end
  end.

Definition treeURL : string :=
  "https://api.github.com/repos/saksham-ghimire/portfolio-builder/git/trees/main?recursive=1".

Definition rawBase : string :=
  "https://raw.githubusercontent.com/saksham-ghimire/portfolio-builder/main/".

Definition templatePrefixOf (templateId : string) : string :=
  "templates/" +:+ templateId +:+ "/".

(** Lines 342-348: the paths of the blobs under the template's prefix. *)
Definition selectTemplateFiles (templatePrefix : string) (tree : list GitHubTreeItem)
    : list string :=
  foldl (λ templateFiles item,
           if HasPrefix (Path item) templatePrefix && String.eqb (Type_ item) "blob"
           then templateFiles ++ [Path item]
           else templateFiles)
        [] tree.

(** Lines 355-369: the body of the download loop, for one file. *)
Definition downloadTemplateFile (templatePath templatePrefix : string)
    (filePath : string) (w : World) : World * Outcome unit :=
  let relPath := TrimPrefix filePath templatePrefix in
  let localPath := filepath_Join templatePath relPath in
  match os_MkdirAll (filepath_Dir localPath) w with
  | (w, Some err) => fatalf ("error creating directory: " +:+ err) w
  | (w, None) =>
      let rawURL := rawBase +:+ filePath in
      match downloadFile rawURL localPath w with
      | (w, Exited msg) => (w, Exited msg)
      | (w, Returned _) => (logPrintln ("Downloaded: " +:+ relPath) w, Returned ())
      end
  end.

(** Lines 311-373. [filepath.Join] of three elements is the join of the
    first two with the third. *)
Definition downloadTemplateFromGitHub (templateId : string) (w : World)
    : World * Outcome string :=
  match os_MkdirTemp EmptyString "portfolio-template-*" w with
  | inr err => fatalf ("error creating temp directory: " +:+ err) w
  | inl (tempDir, w) =>
      let templatePath :=
        filepath_Join (filepath_Join tempDir "templates") templateId in
      let w := logPrintln ("Downloading template '" +:+ templateId +:+ "'...") w in
      match http_Get treeURL w with
      | inr err => fatalf ("error fetching repository tree: " +:+ err) w
      | inl resp =>
          if bool_decide (StatusCode resp ≠ 200%Z) then
            fatalf ("failed to fetch repository tree: HTTP "
                    +:+ pretty (StatusCode resp)) w
          else
            match json_DecodeTree resp with
            | inr err => fatalf ("error parsing tree response: " +:+ err) w
            | inl tree =>
                let templatePrefix := templatePrefixOf templateId in
                let templateFiles := selectTemplateFiles templatePrefix tree in
                if bool_decide (length templateFiles = 0) then
                  fatalf ("no files found for template '" +:+ templateId +:+ "'") w
                else
                  match forEachOrExit
                          (downloadTemplateFile templatePath templatePrefix)
                          templateFiles w with
                  | (w, Exited msg) => (w, Exited msg)
                  | (w, Returned _) =>
                      (logPrintln ("Template downloaded to: " +:+ templatePath) w,
                       Returned templatePath)
                  end
            end
      end
  end.

(** Lines 91-104. *)
Definition readConfig (configFile : string) (w : World) : World * Outcome Config :=
  match os_ReadFile (files w) configFile with
  | inr err => fatalf ("Error reading config file: " +:+ err) w
  | inl yamlFile =>
      match yaml_Unmarshal yamlFile with
      | inr err => fatalf ("Error parsing YAML: " +:+ err) w
      | inl config => (w, Returned config)
      end
  end.

(** Lines 106-132. *)
Definition validateConfig (uri : string) (config : Config) (w : World)
    : World * Outcome unit :=
  match json_Marshal config with
  | inr err => fatalf ("Error converting config to JSON: " +:+ err) w
  | inl jsonBytes =>
      match gojsonschema_Validate uri jsonBytes w with
      | inr err => fatalf ("Error validating schema: " +:+ err) w
      | inl errors =>
          if bool_decide (errors = []) then
            (logPrintln "Config is valid!" w, Returned ())
          else
            fatalf "Config validation failed, please fix the resulted error and try again"
              (foldl (λ w desc, logPrintln ("- " +:+ desc) w) w errors)
      end
  end.

(** Lines 35-76, the arguments being those [getArgs] returns and the two
    enumeration orders those the runtime picks for the configuration read;
    from line 55 on it is [main] above. *)
Definition mainFromArgs (templateId configFilePath outputDir : string)
    (pageOrder : Config → list string)
    (entryOrder : Config → list (string * Value)) (w : World) : World * Exit :=
  let configUrl := rawBase +:+ "templates/" +:+ templateId +:+ "/config.yml" in
  if bool_decide (templateId ≠ EmptyString) then
    let w := logPrintln ("Fetching template configuration for id: " +:+ templateId) w in
    match downloadFile configUrl "config.yml" w with
    | (w, Exited msg) => (w, Fatal msg)
    | (w, Returned _) =>
        (logPrintln ("Successfully fetched the configuration, please update "
                     +:+ "'config.yml' as needed, and execute the program") w,
         Success)
    end
  else
    match readConfig configFilePath w with
    | (w, Exited msg) => (w, Fatal msg)
    | (w, Returned config) =>
        let schemaUrl :=
          rawBase +:+ "templates/" +:+ TemplateId config +:+ "/schema.json" in
        match validateConfig schemaUrl config w with
        | (w, Exited msg) => (w, Fatal msg)
        | (w, Returned _) =>
            match downloadTemplateFromGitHub (TemplateId config) w with
            | (w, Exited msg) => (w, Fatal msg)
            | (w, Returned templateDir) =>
                main config templateDir outputDir (pageOrder config)
                  (entryOrder config) w
            end
        end
    end.

End Head.

(** ** A small network to run the head of the program on *)

Module SampleNet.

(** The remote side: status and body by URL. *)
Definition remote : gmap string (Z * string) :=
  list_to_map
    [(treeURL, (200%Z, "tree"));
     (rawBase +:+ "templates/0001/config.yml", (200%Z, "site"));
     (rawBase +:+ "templates/0001/pages/base.html",
      (200%Z, "{{.base.site}}: {{.title}}"));
     (rawBase +:+ "templates/0001/pages/index.html", (200%Z, "{{define x}}{{end}}"));
     (rawBase +:+ "templates/0404/config.yml", (404%Z, "404: Not Found"))].

Definition get (url : string) (w : World) : Response + string :=
  match remote !! url with
  | Some (code, body) => inl {| StatusCode := code; Body := body; BodyError := None |}
  | None => inr "dial tcp: lookup failed: no such host"
  end.

Definition tree : list GitHubTreeItem :=
  [ {| Path := "README.md"; Type_ := "blob" |};
    {| Path := "templates"; Type_ := "tree" |};
    {| Path := "templates/0001"; Type_ := "tree" |};
    {| Path := "templates/0001/pages"; Type_ := "tree" |};
    {| Path := "templates/0001/pages/base.html"; Type_ := "blob" |};
    {| Path := "templates/0001/pages/index.html"; Type_ := "blob" |};
    {| Path := "templates/0002/pages/index.html"; Type_ := "blob" |} ].

Definition decodeTree (resp : Response) : list GitHubTreeItem + string :=
  if String.eqb (Body resp) "tree" then inl tree
  else inr "invalid character in tree response".

(** Two configuration texts are understood. *)
Definition unmarshal (content : string) : Config + string :=
  if String.eqb content "site" then inl Sample.siteConfig
  else if String.eqb content "empty" then
    inl {| TemplateId := "0002"; Base := None; Pages := ∅; Collections := None |}
  else inr "yaml: did not find expected key".

Definition marshal (config : Config) : string + string :=
  inl ("{template_id: " +:+ TemplateId config +:+ "}").

(** The schema of template 0001 accepts the document, that of template
    0002 finds two violations, another schema cannot be loaded. *)
Definition validate (uri document : string) (w : World) : list string + string :=
  if String.eqb uri (rawBase +:+ "templates/0001/schema.json") then inl []
  else if String.eqb uri (rawBase +:+ "templates/0002/schema.json") then
    inl ["(root): pages is required"; "(root): base is required"]
  else inr "Could not read schema from HTTP, response status is 404 Not Found".

Definition mkdirTemp (dir pattern : string) (w : World) : (string * World) + string :=
  inl ("tmp/portfolio-template-1",
       {| files := files w; dirs := {[ "tmp/portfolio-template-1" ]} ∪ dirs w;
          logs := logs w |}).

Definition dirOf (path : string) : string :=
  String.substring 0
    (String.length path - String.length (Sample.baseOf path EmptyString) - 1) path.

Definition services : Services := {|
  http_Get := get;
  json_DecodeTree := decodeTree;
  yaml_Unmarshal := unmarshal;
  json_Marshal := marshal;
  gojsonschema_Validate := validate;
  os_MkdirTemp := mkdirTemp;
  filepath_Dir := dirOf
|}.

Definition siteDisk : World :=
  Sample.world [("config.yml", "site")] ["out"].

Definition emptyDisk : World := Sample.world [] [].

Definition rejectedDisk : World :=
  Sample.world [("config.yml", "empty")] ["out"].

End SampleNet.

(** ** Properties *)

Section Merge.

(** Copying the keys of [ctx] one by one over [init], whatever the order
    in which the map is enumerated, yields [ctx] laid over [init]. *)
Lemma merge_loop_union (ctx init : gmap string Value) :
  map_fold (λ k v data, <[k := v]> data) init ctx = ctx ∪ init.
Proof.
  induction ctx as [|k v ctx Hk IH] using map_ind.
  - by rewrite map_fold_empty, (left_id_L ∅ (∪)).
  - rewrite map_fold_insert_L; [|intros; by apply insert_insert_ne|done].
    by rewrite IH, insert_union_l.
Qed.

Lemma merge_any_order (ctx init : gmap string Value) (l : list (string * Value)) :
  l ≡ₚ map_to_list ctx →
  foldl (λ data kv, <[kv.1 := kv.2]> data) init l = ctx ∪ init.
Proof.
  intros Hl.
  assert (Hnd : NoDup l.*1).
  { rewrite Hl. apply NoDup_fst_map_to_list. }
  assert (Hctx : ctx = list_to_map l).
  { rewrite <-(list_to_map_to_list ctx) at 1.
    symmetry. by apply list_to_map_proper. }
  rewrite Hctx. clear Hl Hctx. revert init Hnd.
  induction l as [|[k v] l IH]; intros init Hnd; simpl.
  - by rewrite (left_id_L ∅ (∪)).
  - apply NoDup_cons in Hnd as [Hk Hnd].
    rewrite IH by done.
    apply (not_elem_of_list_to_map_1 (M := gmap string)) in Hk.
    simpl in Hk. apply map_eq; intros j.
    rewrite !lookup_union.
    destruct (decide (k = j)) as [<-|Hne].
    + rewrite Hk, !lookup_insert_eq. by destruct (init !! k).
    + by rewrite !lookup_insert_ne.
Qed.

End Merge.

Section RenderContext.
Context `{Platform}.

(** C1. With [base] present and a page whose value is a mapping, the data
    handed to the execution of ["base.html"] is the page's mapping laid over
    the one-entry map ["base" := base]: every page key is there with the
    page's value (so a page key named ["base"] replaces the reserved entry),
    ["base"] is bound to the configuration's base map when the page has no
    such key, and there is no other key. *)
Theorem page_context_base_and_mapping
    (config : Config) (tmpl : Template) (pageName : string)
    (base pageCtx : gmap string Value) :
  Base config = Some base →
  Pages config !! pageName = Some (VMap pageCtx) →
  let data := pageData base (VMap pageCtx) in
  executePage config tmpl pageName = tmpl_ExecuteTemplate tmpl "base.html" (VMap data)
  ∧ data = pageCtx ∪ {[ "base" := VMap base ]}
  ∧ (∀ k v, pageCtx !! k = Some v → data !! k = Some v)
  ∧ (∀ v, pageCtx !! "base" = Some v → data !! "base" = Some v)
  ∧ (pageCtx !! "base" = None → data !! "base" = Some (VMap base))
  ∧ (∀ k, k ≠ "base" → pageCtx !! k = None → data !! k = None).
Proof.
  intros Hbase Hpage data.
  assert (Hdata : data = pageCtx ∪ {[ "base" := VMap base ]}).
  { unfold data, pageData. simpl. apply merge_loop_union. }
  split_and!.
  - unfold executePage, index. by rewrite Hbase, Hpage.
  - done.
  - intros k v Hk. rewrite Hdata. by apply lookup_union_Some_l.
  - intros v Hk. rewrite Hdata. by apply lookup_union_Some_l.
  - intros Hk. rewrite Hdata, lookup_union_r by done. apply lookup_singleton_eq.
  - intros k Hne Hk. rewrite Hdata, lookup_union_r by done.
    by apply lookup_singleton_ne.
Qed.

(** C2. With [base] absent nothing is merged: the page template is executed
    with the page's value as it stands in the configuration, and an item's
    template with the item as it stands. *)
Theorem page_context_without_base
    (config : Config) (tmpl : Template) (pageName : string) (item : Value) :
  Base config = None →
  executePage config tmpl pageName = tmpl_Execute tmpl (index (Pages config) pageName)
  ∧ executeItem config tmpl item = tmpl_Execute tmpl item.
Proof.
  intros Hbase. unfold executePage, executeItem. by rewrite Hbase.
Qed.

(** C3. With [base] present and a page value that is no mapping, the data
    handed to the execution holds the key ["base"], bound to the
    configuration's base map, and nothing else. *)
Theorem page_context_base_and_non_mapping
    (config : Config) (tmpl : Template) (pageName : string)
    (base : gmap string Value) :
  Base config = Some base →
  asMap (index (Pages config) pageName) = None →
  pageData base (index (Pages config) pageName) = {[ "base" := VMap base ]}
  ∧ executePage config tmpl pageName
    = tmpl_ExecuteTemplate tmpl "base.html" (VMap {[ "base" := VMap base ]}).
Proof.
  intros Hbase Hpage.
  assert (Hdata : pageData base (index (Pages config) pageName)
                  = {[ "base" := VMap base ]}).
  { unfold pageData. by rewrite Hpage. }
  split; [done|]. unfold executePage. by rewrite Hbase, Hdata.
Qed.

(** C4. For one and the same context value the collection renderer and the
    page renderer build the same data and run the same execution, with and
    without [base]. *)
Theorem item_context_same_as_page
    (config : Config) (tmpl : Template) (pageName : string) (item : Value) :
  index (Pages config) pageName = item →
  executeItem config tmpl item = executePage config tmpl pageName
  ∧ ∀ base, itemData base item = pageData base item.
Proof.
  intros <-. split; [|done].
  unfold executeItem, executePage. by destruct (Base config).
Qed.

End RenderContext.

Lemma page_context_base_and_mapping_witness :
  pageData {[ "site" := VString "MySite" ]}
    (Sample.obj [("title", VString "Hi"); ("base", VString "mine")]) !! "base"
  = Some (VString "mine").
Proof.
  refine (proj1 (proj2 (proj2 (proj2
    (@page_context_base_and_mapping Sample.platform Sample.shadowConfig []
       "index" {[ "site" := VString "MySite" ]}
       (list_to_map [("title", VString "Hi"); ("base", VString "mine")])
       _ _)))) (VString "mine") _);
    reflexivity.
Defined.

Lemma page_context_without_base_witness :
  @executePage Sample.platform Sample.plainConfig [("about.html", "{{.title}}")] "about"
  = Sample.execute [("about.html", "{{.title}}")] (VString "me").
Proof.
  refine (proj1 (@page_context_without_base Sample.platform Sample.plainConfig
                   [("about.html", "{{.title}}")] "about" VNil _)).
  reflexivity.
Defined.

Lemma page_context_base_and_non_mapping_witness :
  pageData {[ "site" := VString "MySite" ]} (index (Pages Sample.scalarConfig) "about")
  = {[ "base" := VMap {[ "site" := VString "MySite" ]} ]}.
Proof.
  refine (proj1 (@page_context_base_and_non_mapping Sample.platform
                   Sample.scalarConfig [] "about" {[ "site" := VString "MySite" ]} _ _));
    reflexivity.
Defined.

Lemma item_context_same_as_page_witness :
  @executeItem Sample.platform Sample.siteConfig [("base.html", "{{.base.site}}: {{.title}}")]
    (Sample.obj [("title", VString "Hi")])
  = @executePage Sample.platform Sample.siteConfig
      [("base.html", "{{.base.site}}: {{.title}}")] "index".
Proof.
  refine (proj1 (@item_context_same_as_page Sample.platform Sample.siteConfig
                   [("base.html", "{{.base.site}}: {{.title}}")] "index"
                   (Sample.obj [("title", VString "Hi")]) _)).
  reflexivity.
Defined.

(** ** The loops *)

Section Loops.
Context {A : Type} (body : A → World → World * Result).

Lemma forEach_app (l1 l2 : list A) (w w1 : World) :
  forEach body l1 w = (w1, RNil) →
  forEach body (l1 ++ l2) w = forEach body l2 w1.
Proof.
  revert w. induction l1 as [|x l1 IH]; intros w Hrun; simpl in *.
  - by injection Hrun as ->.
  - destruct (body x w) as [w' []]; try done. by apply IH.
Qed.

(** The first iteration that does not end in [RNil] ends the loop: what
    follows it in the enumeration is not run. *)
Lemma forEach_stop (l1 l2 : list A) (x : A) (w w1 w2 : World) (r : Result) :
  forEach body l1 w = (w1, RNil) →
  body x w1 = (w2, r) →
  r ≠ RNil →
  forEach body (l1 ++ x :: l2) w = (w2, r).
Proof.
  intros Hrun Hx Hr. rewrite (forEach_app _ _ _ _ Hrun). simpl.
  rewrite Hx. by destruct r.
Qed.

(** An iteration that [continue]s leaves the loop to go on as if the
    element were not there. *)
Lemma forEach_skip (l1 l2 : list A) (x : A) (w : World) :
  (∀ w', body x w' = (w', RNil)) →
  forEach body (l1 ++ x :: l2) w = forEach body (l1 ++ l2) w.
Proof.
  intros Hx. revert w. induction l1 as [|y l1 IH]; intros w; simpl.
  - by rewrite Hx.
  - destruct (body y w) as [w' []]; done.
Qed.

End Loops.

(** ** Lenient skips and unchecked conversions *)

Section Shapes.
Context `{Platform}.

(** A collection that is a mapping without an [items] sequence is passed
    over: nothing is written, nothing is logged, no error. *)
Lemma collection_without_items_skipped
    (config : Config) (templateDir outputDir name : string)
    (fields : gmap string Value) (w : World) :
  asSlice (index fields "items") = None →
  generateCollection config templateDir outputDir (name, VMap fields) w = (w, RNil).
Proof. intros Hitems. simpl. by rewrite Hitems. Qed.

(** C5 (the code departs from it). A collection whose value is no mapping
    is not passed over: the conversion on line 197 panics, and the run ends
    there, whatever collections follow in the enumeration. *)
Theorem collection_not_a_mapping_panics
    (config : Config) (templateDir outputDir name : string)
    (collections : gmap string Value) (collectionData : Value)
    (rest : list (string * Value)) (w : World) :
  Collections config = Some collections →
  asMap collectionData = None →
  generateCollections config templateDir outputDir ((name, collectionData) :: rest) w
  = (w, RPanic (conversionPanic collectionData)).
Proof.
  intros Hcs Hdata. unfold generateCollections. rewrite Hcs. simpl.
  by destruct collectionData.
Qed.

(** An item that is a mapping without a string under [output_file] is
    passed over. *)
Lemma item_without_output_file_skipped
    (config : Config) (outputDir : string) (tmpl : Template)
    (fields : gmap string Value) (w : World) :
  fields !! "output_file" ≫= asString = None →
  generateItem config outputDir tmpl (VMap fields) w = (w, RNil).
Proof.
  intros Hout. simpl. destruct (fields !! "output_file") as [v|]; [|done].
  simpl in Hout. by rewrite Hout.
Qed.

(** The items around a passed-over item are rendered as without it. *)
Lemma siblings_of_skipped_item_rendered
    (config : Config) (outputDir : string) (tmpl : Template)
    (fields : gmap string Value) (before after : list Value) (w : World) :
  fields !! "output_file" ≫= asString = None →
  forEach (generateItem config outputDir tmpl) (before ++ VMap fields :: after) w
  = forEach (generateItem config outputDir tmpl) (before ++ after) w.
Proof.
  intros Hout. apply forEach_skip. intros w'.
  by apply item_without_output_file_skipped.
Qed.

(** C6 (the code departs from it). An item that is no mapping, and so has
    no [output_file], is not passed over: the conversion on line 221
    panics, and the items after it are not rendered. *)
Theorem item_not_a_mapping_panics
    (config : Config) (outputDir : string) (tmpl : Template)
    (before after : list Value) (item : Value) (w w1 : World) :
  asMap item = None →
  forEach (generateItem config outputDir tmpl) before w = (w1, RNil) →
  forEach (generateItem config outputDir tmpl) (before ++ item :: after) w
  = (w1, RPanic (conversionPanic item)).
Proof.
  intros Hitem Hbefore.
  apply (forEach_stop _ _ _ _ _ _ _ _ Hbefore); [|done].
  by destruct item.
Qed.

End Shapes.

Lemma collection_not_a_mapping_panics_witness :
  @generateCollections Sample.platform Sample.nullCollectionConfig "tpl/pages" "out"
    [("posts", VNil)] Sample.postsWorld
  = (Sample.postsWorld,
     RPanic "interface conversion: interface {} is nil, not map[string]interface {}").
Proof.
  refine (@collection_not_a_mapping_panics Sample.platform
            Sample.nullCollectionConfig "tpl/pages" "out" "posts"
            {[ "posts" := VNil ]} VNil [] Sample.postsWorld _ _);
    reflexivity.
Defined.

Lemma item_not_a_mapping_panics_witness :
  ∃ w1,
    forEach (@generateItem Sample.platform Sample.scalarItemConfig "out"
               [("posts.html", "{{.title}}")])
      ([Sample.obj [("output_file", VString "post1.html"); ("title", VString "A")]]
       ++ VString "hello" :: []) Sample.postsWorld
    = (w1, RPanic "interface conversion: interface {} is string, not map[string]interface {}")
    ∧ files w1 !! "out/post1.html" = Some "A".
Proof.
  eexists. split.
  - refine (@item_not_a_mapping_panics Sample.platform Sample.scalarItemConfig "out"
              [("posts.html", "{{.title}}")] _ [] (VString "hello")
              Sample.postsWorld _ _ _); [reflexivity|].
    vm_compute. reflexivity.
  - vm_compute. reflexivity.
Defined.

(** The whole program on these two configurations. *)
Example null_collection_crashes :
  (@main Sample.platform Sample.nullCollectionConfig "tpl" "out" []
     [("posts", VNil)] Sample.postsWorld).2
  = Crash "interface conversion: interface {} is nil, not map[string]interface {}".
Proof. vm_compute. reflexivity. Qed.

Example scalar_item_crashes :
  (@main Sample.platform Sample.scalarItemConfig "tpl" "out" []
     (map_to_list (default ∅ (Collections Sample.scalarItemConfig)))
     Sample.postsWorld).2
  = Crash "interface conversion: interface {} is string, not map[string]interface {}".
Proof. vm_compute. reflexivity. Qed.

(** The second scenario of the specification, with a third item. *)
Example posts_scenario :
  let r := @main Sample.platform Sample.postsConfig "tpl" "out" []
             (map_to_list (default ∅ (Collections Sample.postsConfig)))
             Sample.postsWorld in
  r.2 = Success
  ∧ files r.1 = {[ "out/post1.html" := "A"; "out/post3.html" := "C" ]}.
Proof. vm_compute. split; reflexivity. Qed.

Example site_scenario :
  let r := @main Sample.platform Sample.siteConfig "tpl" "out" ["index"] []
             Sample.siteWorld in
  r.2 = Success ∧ files r.1 = {[ "out/index.html" := "MySite: Hi" ]}.
Proof. vm_compute. split; reflexivity. Qed.

(** ** Failures *)

Section Failures.
Context `{Platform}.

Lemma os_ReadFile_missing (fs : gmap string string) (path : string) :
  fs !! path = None →
  os_ReadFile fs path = inr ("open " +:+ path +:+ ": no such file or directory").
Proof. intros Hpath. unfold os_ReadFile. by rewrite Hpath. Qed.

(** Parsing fails as soon as one of the named files is absent. *)
Lemma parseFiles_missing (fs : gmap string string) (filenames : list string)
    (t : option Template) (path : string) :
  path ∈ filenames → fs !! path = None →
  ∃ cause, parseFiles fs t filenames = inr cause.
Proof.
  intros Hin Hpath. revert t.
  induction filenames as [|f rest IH]; intros t; [by apply elem_of_nil in Hin|].
  simpl. destruct (os_ReadFile fs f) as [s|err] eqn:Hread; [|by eexists].
  destruct (tmpl_Parse t f s) as [t'|err]; [|by eexists].
  apply elem_of_cons in Hin as [->|Hin]; [|by apply IH].
  by rewrite os_ReadFile_missing in Hread.
Qed.

Lemma parseTemplates_missing (config : Config) (templateDir templatePath : string)
    (fs : gmap string string) :
  fs !! templatePath = None
  ∨ (is_Some (Base config) ∧ fs !! filepath_Join templateDir "base.html" = None) →
  ∃ cause, parseTemplates config templateDir templatePath fs = inr cause
    ∧ (Base config = None →
       cause = "open " +:+ templatePath +:+ ": no such file or directory")
    ∧ (is_Some (Base config) → fs !! filepath_Join templateDir "base.html" = None →
       cause = "open " +:+ filepath_Join templateDir "base.html"
               +:+ ": no such file or directory").
Proof.
  intros Hmissing. unfold parseTemplates, ParseFiles.
  destruct (Base config) as [base|] eqn:Hbase.
  - simpl.
    destruct (fs !! filepath_Join templateDir "base.html") as [s|] eqn:Hb.
    + destruct Hmissing as [Hpage|[_ ?]]; [|done].
      unfold os_ReadFile at 1. rewrite Hb.
      destruct (tmpl_Parse None _ s) as [t|err].
      * rewrite os_ReadFile_missing by done. eexists. split_and!; done.
      * eexists. split_and!; done.
    + rewrite os_ReadFile_missing by done. eexists. split_and!; done.
  - destruct Hmissing as [Hpage|[[? ?] _]]; [|done].
    simpl. rewrite os_ReadFile_missing by done.
    eexists. split_and!; [done|done|]. by intros [? ?].
Qed.

(** C7. When the run reaches a page whose template file is absent, or with
    [base] present whose [base.html] is absent, [generatePages] returns an
    error that names the page, in the world as the pages before it left it:
    no page after it in the enumeration is rendered. [main] ends the run
    with that error, and no collection is rendered either. When no earlier
    listed file fails to parse, the cause reported is the failure to open
    the absent file. *)
Theorem missing_template_is_fatal
    (config : Config) (templateDir outputDir : string)
    (before after : list string) (pageName : string)
    (entries : list (string * Value)) (w wa w1 : World) :
  let pagesDir := templateDir +:+ "/pages" in
  let templatePath := filepath_Join pagesDir (pageName +:+ ".html") in
  let basePath := filepath_Join pagesDir "base.html" in
  os_MkdirAll outputDir w = (wa, None) →
  generatePages config pagesDir outputDir before (copyAssets pagesDir outputDir wa).1
  = (w1, RNil) →
  files w1 !! templatePath = None
  ∨ (is_Some (Base config) ∧ files w1 !! basePath = None) →
  ∃ cause,
    let err := "error parsing templates for page " +:+ pageName +:+ ": " +:+ cause in
    let msg := "Error generating pages. Received error " +:+ err in
    generatePages config pagesDir outputDir (before ++ pageName :: after)
      (copyAssets pagesDir outputDir wa).1 = (w1, RError err)
    ∧ main config templateDir outputDir (before ++ pageName :: after) entries w
      = (logPrintln msg w1, Fatal msg)
    ∧ (Base config = None →
       cause = "open " +:+ templatePath +:+ ": no such file or directory")
    ∧ (is_Some (Base config) → files w1 !! basePath = None →
       cause = "open " +:+ basePath +:+ ": no such file or directory").
Proof.
  intros pagesDir templatePath basePath Hmk Hbefore Hmissing.
  destruct (parseTemplates_missing config pagesDir templatePath (files w1) Hmissing)
    as (cause & Hparse & Hc1 & Hc2).
  exists cause. simpl.
  assert (Hpages :
    generatePages config pagesDir outputDir (before ++ pageName :: after)
      (copyAssets pagesDir outputDir wa).1
    = (w1, RError ("error parsing templates for page " +:+ pageName
                   +:+ ": " +:+ cause))).
  { unfold generatePages in *.
    apply (forEach_stop _ _ _ _ _ _ _ _ Hbefore); [|done].
    unfold generatePage. fold pagesDir templatePath. by rewrite Hparse. }
  split_and!; [done| |done|done].
  unfold main. rewrite Hmk. fold pagesDir.
  destruct (copyAssets pagesDir outputDir wa) as [wb r] eqn:Hcopy.
  assert (r = RNil) as ->.
  { unfold copyAssets in Hcopy. destruct (forEach _ _ wa). by injection Hcopy. }
  simpl in Hpages. by rewrite Hpages.
Qed.

(** C8 (the code departs from it). When the walk over the assets folder
    ends in an error, [copyAssets] logs nothing and returns nil all the
    same: the error goes nowhere. *)
Theorem copy_failure_is_swallowed
    (templateDir outputDir : string) (w w' : World) (e : string) :
  let srcFolder := filepath_Join templateDir "assets" in
  let dstFolder := filepath_Join outputDir "assets" in
  os_Stat_IsNotExist w srcFolder = false →
  filepath_WalkDir srcFolder (copyEntry srcFolder dstFolder) w = (w', Some e) →
  copyAssets templateDir outputDir w = (w', RNil).
Proof.
  intros srcFolder dstFolder Hstat Hwalk.
  unfold copyAssets. simpl. unfold copyFolder.
  fold srcFolder dstFolder. by rewrite Hstat, Hwalk.
Qed.

(** Whatever happens, [copyAssets] returns nil. *)
Lemma copyAssets_returns_nil (templateDir outputDir : string) (w : World) :
  (copyAssets templateDir outputDir w).2 = RNil.
Proof. unfold copyAssets. by destruct (forEach _ _ w). Qed.

(** C10. A page whose templates parse and whose output file is created, but
    whose execution fails, ends [generatePages] with an error while the
    output file stays behind, holding what the execution wrote before it
    failed; and so does such an item of a collection for
    [generateCollections]. *)
Theorem failed_execution_leaves_output_file
    (config : Config) (templateDir outputDir : string) :
  (∀ (before after : list string) (pageName : string) (w w1 : World)
     (tmpl : Template) (written e : string),
     let outputFile := filepath_Join outputDir (pageName +:+ ".html") in
     generatePages config templateDir outputDir before w = (w1, RNil) →
     parseTemplates config templateDir
       (filepath_Join templateDir (pageName +:+ ".html")) (files w1) = inl tmpl →
     os_Create_error w1 outputFile = None →
     executePage config tmpl pageName = (written, Some e) →
     ∃ w2,
       generatePages config templateDir outputDir (before ++ pageName :: after) w
       = (w2, RError ("error executing template for page " +:+ pageName
                      +:+ ": " +:+ e))
       ∧ files w2 = <[outputFile := written]> (files w1)
       ∧ files w2 !! outputFile = Some written)
  ∧ (∀ (collections : gmap string Value)
       (before after : list (string * Value)) (name : string)
       (fields item : gmap string Value) (itemsBefore itemsAfter : list Value)
       (outputFileName : string) (w w1 w2 : World)
       (tmpl : Template) (written e : string),
     let outputPath := filepath_Join outputDir outputFileName in
     Collections config = Some collections →
     generateCollections config templateDir outputDir before w = (w1, RNil) →
     fields !! "items" = Some (VSlice (itemsBefore ++ VMap item :: itemsAfter)) →
     parseTemplates config templateDir
       (filepath_Join templateDir (name +:+ ".html")) (files w1) = inl tmpl →
     forEach (generateItem config outputDir tmpl) itemsBefore w1 = (w2, RNil) →
     item !! "output_file" = Some (VString outputFileName) →
     os_Create_error w2 outputPath = None →
     executeItem config tmpl (VMap item) = (written, Some e) →
     ∃ w3,
       generateCollections config templateDir outputDir
         (before ++ (name, VMap fields) :: after) w
       = (w3, RError ("error executing template for item " +:+ outputFileName
                      +:+ ": " +:+ e))
       ∧ files w3 = <[outputPath := written]> (files w2)
       ∧ files w3 !! outputPath = Some written).
Proof.
  split.
  - intros before after pageName w w1 tmpl written e outputFile
      Hbefore Hparse Hcreate Hexec.
    eexists. split_and!.
    + unfold generatePages in *.
      apply (forEach_stop _ _ _ _ _ _ _ _ Hbefore); [|done].
      unfold generatePage, os_Create. fold outputFile.
      rewrite Hparse, Hcreate, Hexec. reflexivity.
    + simpl. by rewrite insert_insert_eq.
    + simpl. apply lookup_insert_eq.
  - intros collections before after name fields item itemsBefore itemsAfter
      outputFileName w w1 w2 tmpl written e outputPath
      Hcs Hbefore Hitems Hparse HitemsBefore Hout Hcreate Hexec.
    eexists. split_and!.
    + unfold generateCollections in *. rewrite Hcs in *.
      apply (forEach_stop _ _ _ _ _ _ _ _ Hbefore); [|done].
      unfold generateCollection, index. rewrite Hitems. simpl. rewrite Hparse.
      apply (forEach_stop _ _ _ _ _ _ _ _ HitemsBefore); [|done].
      unfold generateItem, os_Create. rewrite Hout. simpl. fold outputPath.
      rewrite Hcreate, Hexec. reflexivity.
    + simpl. by rewrite insert_insert_eq.
    + simpl. apply lookup_insert_eq.
Qed.

End Failures.

Lemma missing_template_is_fatal_witness :
  (@main Sample.platform Sample.plainConfig "tpl" "out" (["index"] ++ "about" :: []) []
     Sample.plainWorld).2
  = Fatal ("Error generating pages. Received error error parsing templates for page "
           +:+ "about: open tpl/pages/about.html: no such file or directory").
Proof.
  destruct (@missing_template_is_fatal Sample.platform Sample.plainConfig "tpl" "out"
              ["index"] [] "about" [] Sample.plainWorld
              (Sample.mkdirAll "out" Sample.plainWorld).1
              (@generatePages Sample.platform Sample.plainConfig "tpl/pages" "out"
                 ["index"] Sample.plainWorld).1)
    as (cause & _ & Hmain & Hcause & _).
  - vm_compute. reflexivity.
  - vm_compute. reflexivity.
  - left. vm_compute. reflexivity.
  - rewrite Hmain. simpl. rewrite (Hcause eq_refl). reflexivity.
Defined.

Lemma copy_failure_is_swallowed_witness :
  @copyAssets Sample.platform "tpl/pages" "out" Sample.blockedAssetsWorld
  = (Sample.blockedAssetsWorld, RNil).
Proof.
  refine (@copy_failure_is_swallowed Sample.platform "tpl/pages" "out"
            Sample.blockedAssetsWorld Sample.blockedAssetsWorld
            "mkdir out/assets: not a directory" _ _).
  - vm_compute. reflexivity.
  - vm_compute. reflexivity.
Defined.

(** The run goes on after the failed copy and reports success; the
    stylesheet is not in the output. *)
Example blocked_assets_run :
  let r := @main Sample.platform Sample.siteConfig "tpl" "out" ["index"] []
             Sample.blockedAssetsWorld in
  r.2 = Success
  ∧ files r.1 !! "out/index.html" = Some "MySite: Hi"
  ∧ files r.1 !! "out/assets/site.css" = None
  ∧ logs r.1 = ["Generated page: out/index.html";
                "Portfolio generation completed successfully!"].
Proof. vm_compute. split_and!; reflexivity. Qed.

Lemma failed_execution_leaves_output_file_witness :
  (∃ w2,
     @generatePages Sample.platform Sample.plainConfig "tpl/pages" "out"
       ([] ++ "index" :: ["about"]) Sample.failingWorld
     = (w2, RError ("error executing template for page index: "
                    +:+ "can't evaluate field x in type interface {}"))
     ∧ files w2 !! "out/index.html" = Some "<h1>")
  ∧ (∃ w3,
       @generateCollections Sample.platform Sample.postsConfig "tpl/pages" "out"
         ([] ++ ("posts",
                 Sample.obj [("items",
                    VSlice [Sample.obj [("output_file", VString "post1.html");
                                        ("title", VString "A")];
                            Sample.obj [("title", VString "B")];
                            Sample.obj [("output_file", VString "post3.html");
                                        ("title", VString "C")]])]) :: [])
         Sample.failingWorld
       = (w3, RError ("error executing template for item post1.html: "
                      +:+ "can't evaluate field x in type interface {}"))
       ∧ files w3 !! "out/post1.html" = Some "<h1>").
Proof.
  pose proof (@failed_execution_leaves_output_file Sample.platform) as Hthm.
  split.
  - destruct (proj1 (Hthm Sample.plainConfig "tpl/pages" "out")
                [] ["about"] "index" Sample.failingWorld Sample.failingWorld
                [("index.html", "<h1>{{.title.x}}")] "<h1>"
                "can't evaluate field x in type interface {}")
      as (w2 & Hrun & _ & Hfile); try (vm_compute; reflexivity).
    exists w2. split; [exact Hrun|exact Hfile].
  - destruct (proj2 (Hthm Sample.postsConfig "tpl/pages" "out")
                (default ∅ (Collections Sample.postsConfig)) [] [] "posts"
                (list_to_map
                   [("items",
                     VSlice [Sample.obj [("output_file", VString "post1.html");
                                         ("title", VString "A")];
                             Sample.obj [("title", VString "B")];
                             Sample.obj [("output_file", VString "post3.html");
                                         ("title", VString "C")]])])
                (list_to_map [("output_file", VString "post1.html");
                              ("title", VString "A")])
                []
                [Sample.obj [("title", VString "B")];
                 Sample.obj [("output_file", VString "post3.html");
                             ("title", VString "C")]]
                "post1.html" Sample.failingWorld Sample.failingWorld
                Sample.failingWorld
                [("posts.html", "<h1>{{.title.x}}")] "<h1>"
                "can't evaluate field x in type interface {}")
      as (w3 & Hrun & _ & Hfile); try (vm_compute; reflexivity).
    exists w3. split; [exact Hrun|exact Hfile].
Defined.

(** The whole program: the run is fatal and the truncated page is there. *)
Example failed_execution_run :
  let r := @main Sample.platform Sample.plainConfig "tpl" "out" ["index"; "about"] []
             Sample.failingWorld in
  r.2 = Fatal ("Error generating pages. Received error error executing template "
               +:+ "for page index: can't evaluate field x in type interface {}")
  ∧ files r.1 !! "out/index.html" = Some "<h1>".
Proof. vm_compute. split; reflexivity. Qed.

(** ** Enumeration order *)

(** C9 (as the specification words it). Two collections whose items name
    the same output file: both enumerations give a successful run, and the
    file holds the item of the collection that came last. *)
Lemma orderIndependent_fails : ¬ @orderIndependent Sample.platform.
Proof.
  intros Hclaim.
  pose (posts := ("posts", Sample.obj [("items",
           VSlice [Sample.obj [("output_file", VString "x.html");
                               ("title", VString "A")]])])).
  pose (talks := ("talks", Sample.obj [("items",
           VSlice [Sample.obj [("output_file", VString "x.html");
                               ("title", VString "B")]])])).
  assert (Henum : map_to_list (default ∅ (Collections Sample.collidingConfig))
                  ≡ₚ [posts; talks]).
  { vm_compute map_to_list. apply perm_swap || reflexivity. }
  pose proof (Hclaim Sample.collidingConfig "tpl/pages" "out" [] []
                [posts; talks] [talks; posts]
                Sample.collidingWorld Sample.collidingWorld
                (@generateCollections Sample.platform Sample.collidingConfig
                   "tpl/pages" "out" [posts; talks] Sample.collidingWorld).1
                Sample.collidingWorld
                (@generateCollections Sample.platform Sample.collidingConfig
                   "tpl/pages" "out" [talks; posts] Sample.collidingWorld).1)
    as Heq.
  assert (Hfiles :
    files (@generateCollections Sample.platform Sample.collidingConfig
             "tpl/pages" "out" [posts; talks] Sample.collidingWorld).1 !! "out/x.html"
    = files (@generateCollections Sample.platform Sample.collidingConfig
             "tpl/pages" "out" [talks; posts] Sample.collidingWorld).1 !! "out/x.html").
  { rewrite Heq; try done.
    - unfold enumeratesPages. vm_compute. reflexivity.
    - unfold enumeratesPages. vm_compute. reflexivity.
    - unfold enumeratesCollections. by rewrite Henum.
    - unfold enumeratesCollections. rewrite Henum. apply perm_swap. }
  vm_compute in Hfiles. discriminate Hfiles.
Qed.

(** *** Writes as lists *)

Section Writes.
Implicit Types ws : list (string * string).
Implicit Types fs : gmap string string.

Lemma applyWrites_app ws1 ws2 fs :
  applyWrites (ws1 ++ ws2) fs = applyWrites ws2 (applyWrites ws1 fs).
Proof. apply foldl_app. Qed.

Lemma applyWrites_union ws fs :
  applyWrites ws fs = list_to_map (reverse ws) ∪ fs.
Proof.
  revert fs. induction ws as [|[k v] ws IH]; intros fs.
  - simpl. by rewrite (left_id_L ∅ (∪)).
  - change (applyWrites ((k, v) :: ws) fs) with (applyWrites ws (<[k := v]> fs)).
    rewrite IH, reverse_cons, list_to_map_app. simpl.
    by rewrite insert_empty, <-(assoc_L (∪)), <-insert_union_singleton_l.
Qed.

Lemma applyWrites_lookup_other ws fs p :
  p ∉ ws.*1 → applyWrites ws fs !! p = fs !! p.
Proof.
  intros Hp. rewrite applyWrites_union, lookup_union_r; [done|].
  apply not_elem_of_list_to_map_1. by rewrite fmap_reverse, elem_of_reverse.
Qed.

(** Two runs of writes to separate paths can be exchanged. *)
Lemma applyWrites_exchange ws1 ws2 fs :
  (∀ p, p ∈ ws1.*1 → p ∉ ws2.*1) →
  applyWrites ws2 (applyWrites ws1 fs) = applyWrites ws1 (applyWrites ws2 fs).
Proof.
  intros Hsep. rewrite !applyWrites_union, !(assoc_L (∪)).
  f_equal. apply map_union_comm, map_disjoint_dom_2.
  rewrite !dom_list_to_map, !fmap_reverse.
  intros p. rewrite !elem_of_list_to_set, !elem_of_reverse.
  intros H2 H1. by apply (Hsep p).
Qed.

End Writes.

(** Blocks of writes, one per element, applied in the order of the list;
    when the blocks of different elements go to separate paths, the order of
    the elements does not matter. *)
Section Blocks.
Context {A : Type} (block : A → list (string * string)).

Lemma separate_cons_inv x l :
  separate block (x :: l) →
  separate block l ∧ ∀ y p, y ∈ l → p ∈ (block x).*1 → p ∉ (block y).*1.
Proof.
  intros Hsep. split.
  - intros i j a b p Hij Hi Hj. by apply (Hsep (S i) (S j)); [lia|..].
  - intros y p Hy. apply list_elem_of_lookup in Hy as [j Hj].
    by apply (Hsep 0 (S j)).
Qed.

Lemma separate_perm l l' : l ≡ₚ l' → separate block l → separate block l'.
Proof.
  intros Hperm Hsep i j x y p Hij Hi Hj.
  symmetry in Hperm. apply Permutation_inj in Hperm as [_ (f & Hf & Hlook)].
  rewrite Hlook in Hi, Hj.
  apply (Hsep (f i) (f j)); [|done..].
  intros Heq. by apply Hij, Hf.
Qed.

Lemma applyWrites_blocks_perm l l' fs :
  l ≡ₚ l' → separate block l →
  applyWrites (l ≫= block) fs = applyWrites (l' ≫= block) fs.
Proof.
  intros Hperm. revert fs.
  induction Hperm as [|x l l' Hperm IH|x y l|l l' l'' H1 IH1 H2 IH2];
    intros fs Hsep.
  - done.
  - rewrite !bind_cons, !applyWrites_app.
    apply IH. by apply separate_cons_inv in Hsep as [? _].
  - rewrite !bind_cons, !applyWrites_app. f_equal.
    apply applyWrites_exchange. intros p Hp.
    by apply (Hsep 0 1 y x).
  - rewrite IH1 by done. apply IH2. by apply (separate_perm l).
Qed.

End Blocks.

(** *** What a successful run writes *)

Section Footprint.
Context `{Platform}.
Context (config : Config) (templateDir outputDir : string).
Implicit Types fs : gmap string string.
Implicit Types w : World.

Lemma parseFiles_agree fs fs' (t : option Template) (filenames : list string) :
  (∀ f, f ∈ filenames → fs !! f = fs' !! f) →
  parseFiles fs t filenames = parseFiles fs' t filenames.
Proof.
  revert t. induction filenames as [|f rest IH]; intros t Hagree; [done|].
  simpl. unfold os_ReadFile. rewrite <-(Hagree f) by apply list_elem_of_here.
  destruct (fs !! f) as [s|]; [|done].
  destruct (tmpl_Parse t f s); [|done].
  apply IH. intros g Hg. apply Hagree. by apply list_elem_of_further.
Qed.

Lemma parseTemplates_agree fs fs' (name : string) :
  (∀ t, t ∈ templatePaths config templateDir name → fs !! t = fs' !! t) →
  parseTemplates config templateDir (filepath_Join templateDir (name +:+ ".html")) fs
  = parseTemplates config templateDir (filepath_Join templateDir (name +:+ ".html")) fs'.
Proof.
  unfold templatePaths, parseTemplates, ParseFiles. intros Hagree.
  destruct (Base config); by rewrite (parseFiles_agree fs fs').
Qed.

Lemma generatePage_files fs0 (pageName : string) w w' :
  generatePage config templateDir outputDir pageName w = (w', RNil) →
  (∀ t, t ∈ templatePaths config templateDir pageName → files w !! t = fs0 !! t) →
  files w' = applyWrites (pageWrites config templateDir outputDir fs0 pageName) (files w).
Proof.
  intros Hrun Hagree. unfold generatePage, pageWrites in *.
  rewrite <-(parseTemplates_agree (files w) fs0) by done.
  destruct (parseTemplates _ _ _ (files w)) as [tmpl|err]; [|done].
  unfold os_Create in Hrun.
  destruct (os_Create_error w _); [done|].
  destruct (executePage config tmpl pageName) as [written [e|]]; [done|].
  injection Hrun as <-. simpl. unfold pageOutput. by rewrite insert_insert_eq.
Qed.

Lemma generateItem_files (tmpl : Template) (item : Value) w w' :
  generateItem config outputDir tmpl item w = (w', RNil) →
  files w'
  = applyWrites (option_list (itemWrite config outputDir tmpl item)) (files w).
Proof.
  unfold generateItem, itemWrite, itemOutput. intros Hrun.
  destruct item as [| | | | |fields|]; try done. simpl.
  destruct (fields !! "output_file") as [outputFile|]; simpl;
    [|by injection Hrun as <-].
  destruct (asString outputFile) as [outputFileName|]; simpl;
    [|by injection Hrun as <-].
  unfold os_Create in Hrun.
  destruct (os_Create_error w _); [done|].
  destruct (executeItem config tmpl (VMap fields)) as [written [e|]]; [done|].
  injection Hrun as <-. simpl. by rewrite insert_insert_eq.
Qed.

Lemma generateItems_files (tmpl : Template) (items : list Value) w w' :
  forEach (generateItem config outputDir tmpl) items w = (w', RNil) →
  files w' = applyWrites (omap (itemWrite config outputDir tmpl) items) (files w).
Proof.
  revert w. induction items as [|item items IH]; intros w Hrun; simpl in *.
  - by injection Hrun as <-.
  - destruct (generateItem config outputDir tmpl item w) as [w1 r] eqn:Hitem.
    destruct r; try done.
    apply generateItem_files in Hitem. apply IH in Hrun.
    rewrite Hrun, Hitem.
    by destruct (itemWrite config outputDir tmpl item).
Qed.

Lemma generateCollection_files fs0 (entry : string * Value) w w' :
  generateCollection config templateDir outputDir entry w = (w', RNil) →
  (∀ t, t ∈ templatePaths config templateDir entry.1 → files w !! t = fs0 !! t) →
  files w'
  = applyWrites (collectionWrites config templateDir outputDir fs0 entry) (files w).
Proof.
  destruct entry as [name data]. intros Hrun Hagree.
  unfold generateCollection, collectionWrites, collectionItems in *. simpl in *.
  rewrite <-(parseTemplates_agree (files w) fs0) by done.
  destruct data as [| | | | |fields|]; try done. simpl.
  destruct (asSlice (index fields "items")) as [items|]; simpl.
  - destruct (parseTemplates _ _ _ (files w)) as [tmpl|err]; [|done].
    by apply generateItems_files.
  - injection Hrun as <-. by destruct (parseTemplates _ _ _ (files w)).
Qed.

Lemma pageWrites_paths fs0 (pageName p : string) :
  p ∈ (pageWrites config templateDir outputDir fs0 pageName).*1 →
  p = pageOutput outputDir pageName.
Proof.
  unfold pageWrites. destruct (parseTemplates _ _ _ fs0); simpl.
  - by intros ->%list_elem_of_singleton.
  - by intros ?%elem_of_nil.
Qed.

Lemma collectionWrites_paths fs0 (entry : string * Value) (p : string) :
  p ∈ (collectionWrites config templateDir outputDir fs0 entry).*1 →
  p ∈ collectionOutputs outputDir entry.2.
Proof.
  unfold collectionWrites, collectionOutputs.
  destruct (parseTemplates _ _ _ fs0) as [tmpl|]; [|by intros ?%elem_of_nil].
  intros ([q c] & -> & Hin)%list_elem_of_fmap.
  apply list_elem_of_omap in Hin as (item & Hitem & Hwrite).
  apply list_elem_of_omap. exists item. split; [done|].
  unfold itemWrite in Hwrite.
  destruct (itemOutput outputDir item); simpl in *; by simplify_eq.
Qed.

End Footprint.

(** A loop whose iterations each write a block, as long as what an
    iteration reads is what was there at the start. *)
Section LoopFootprint.
Context {A : Type} (body : A → World → World * Result).
Context (block : A → list (string * string)) (reads : A → list string).
Context (fs0 : gmap string string).
Hypothesis body_files : ∀ x w w',
  body x w = (w', RNil) →
  (∀ t, t ∈ reads x → files w !! t = fs0 !! t) →
  files w' = applyWrites (block x) (files w).

Lemma forEach_files (l : list A) (w w' : World) :
  forEach body l w = (w', RNil) →
  (∀ x t, x ∈ l → t ∈ reads x → files w !! t = fs0 !! t) →
  (∀ x y t, x ∈ l → y ∈ l → t ∈ reads x → t ∉ (block y).*1) →
  files w' = applyWrites (l ≫= block) (files w).
Proof.
  revert w. induction l as [|x l IH]; intros w Hrun Hagree Hsep; simpl in *.
  - by injection Hrun as <-.
  - destruct (body x w) as [w1 r] eqn:Hx. destruct r; try done.
    apply body_files in Hx;
      [|intros t Ht; apply (Hagree x); [apply list_elem_of_here|done]].
    rewrite applyWrites_app, <-Hx. apply IH; [done| |].
    + intros y t Hy Ht. rewrite Hx, applyWrites_lookup_other.
      * apply (Hagree y); [by apply list_elem_of_further|done].
      * apply (Hsep y x); [by apply list_elem_of_further|apply list_elem_of_here|done].
    + intros y z t Hy Hz. apply Hsep; by apply list_elem_of_further.
Qed.

End LoopFootprint.

Lemma separate_by_key {A K : Type} (key : A → K)
    (block : A → list (string * string)) (l : list A) :
  NoDup (key <$> l) →
  (∀ x y p, x ∈ l → y ∈ l → key x ≠ key y →
     p ∈ (block x).*1 → p ∉ (block y).*1) →
  separate block l.
Proof.
  intros Hnd Hsep i j x y p Hij Hi Hj.
  apply Hsep; [by eapply list_elem_of_lookup_2..|].
  intros Hkey. apply Hij.
  apply (NoDup_lookup (key <$> l) i j (key x)); [done|..];
    rewrite list_lookup_fmap.
  - by rewrite Hi.
  - by rewrite Hj, Hkey.
Qed.

Section Order.
Context `{Platform}.
Context (config : Config) (templateDir outputDir : string).

Lemma generateItem_logs (tmpl : Template) (item : Value) (w w' : World) :
  generateItem config outputDir tmpl item w = (w', RNil) →
  logs w' = (logs w ++ (itemLine <$> option_list (itemOutput outputDir item))).
Proof.
  unfold generateItem, itemOutput. intros Hrun.
  destruct item as [| | | | |fields|]; try done. simpl.
  destruct (fields !! "output_file") as [outputFile|]; simpl;
    [|injection Hrun as <-; by rewrite app_nil_r].
  destruct (asString outputFile) as [outputFileName|]; simpl;
    [|injection Hrun as <-; by rewrite app_nil_r].
  unfold os_Create in Hrun.
  destruct (os_Create_error w _); [done|].
  destruct (executeItem config tmpl (VMap fields)) as [written [e|]]; [done|].
  by injection Hrun as <-.
Qed.

Lemma generateItems_logs (tmpl : Template) (items : list Value) (w w' : World) :
  forEach (generateItem config outputDir tmpl) items w = (w', RNil) →
  logs w' = (logs w ++ (itemLine <$> omap (itemOutput outputDir) items)).
Proof.
  revert w. induction items as [|item items IH]; intros w Hrun; simpl in *.
  - injection Hrun as <-. by rewrite app_nil_r.
  - destruct (generateItem config outputDir tmpl item w) as [w1 r] eqn:Hitem.
    destruct r; try done.
    apply generateItem_logs in Hitem. apply IH in Hrun.
    rewrite Hrun, Hitem, <-app_assoc. f_equal.
    by destruct (itemOutput outputDir item).
Qed.

(** Within a collection the items are rendered in the order of the
    sequence: one log line per rendered item, in that order. *)
Lemma generateCollection_logs (entry : string * Value) (w w' : World) :
  generateCollection config templateDir outputDir entry w = (w', RNil) →
  logs w' = (logs w ++ (itemLine <$> collectionOutputs outputDir entry.2)).
Proof.
  destruct entry as [name data]. intros Hrun.
  unfold generateCollection, collectionOutputs, collectionItems in *. simpl in *.
  destruct data as [| | | | |fields|]; try done. simpl.
  destruct (asSlice (index fields "items")) as [items|]; simpl.
  - destruct (parseTemplates _ _ _ (files w)) as [tmpl|err]; [|done].
    by apply (generateItems_logs tmpl).
  - injection Hrun as <-. by rewrite app_nil_r.
Qed.

Lemma template_not_output (pageNames : list string) (entries : list (string * Value))
    (name t : string) :
  apart (templatesRead config templateDir pageNames entries)
        (outputsWritten outputDir pageNames entries) →
  name ∈ pageNames ++ entries.*1 →
  t ∈ templatePaths config templateDir name →
  t ∉ outputsWritten outputDir pageNames entries.
Proof.
  intros Hapart Hname Ht. unfold apart in Hapart.
  rewrite Forall_forall in Hapart. apply Hapart.
  unfold templatesRead. apply list_elem_of_bind. by exists name.
Qed.

Lemma generatePages_files (pageNames order : list string)
    (entries : list (string * Value)) (w w' : World) :
  order ≡ₚ pageNames →
  apart (templatesRead config templateDir pageNames entries)
        (outputsWritten outputDir pageNames entries) →
  generatePages config templateDir outputDir order w = (w', RNil) →
  files w'
  = applyWrites (order ≫= pageWrites config templateDir outputDir (files w)) (files w).
Proof.
  intros Hperm Hapart Hrun.
  apply (forEach_files _ (pageWrites config templateDir outputDir (files w))
           (templatePaths config templateDir) (files w)) in Hrun;
    [done|..].
  - intros x w0 w0'. apply generatePage_files.
  - done.
  - intros x y t Hx Hy Ht Hin. apply pageWrites_paths in Hin.
    apply (template_not_output pageNames entries x t); [done| |done|].
    + apply elem_of_app. left. by rewrite <-Hperm.
    + apply elem_of_app. left. apply list_elem_of_fmap. exists y.
      split; [done|]. by rewrite <-Hperm.
Qed.

Lemma generateCollections_files (pageNames : list string)
    (entries order : list (string * Value)) (fs0 : gmap string string) (w w' : World) :
  order ≡ₚ entries →
  apart (templatesRead config templateDir pageNames entries)
        (outputsWritten outputDir pageNames entries) →
  (∀ t, t ∈ templatesRead config templateDir pageNames entries →
        files w !! t = fs0 !! t) →
  forEach (generateCollection config templateDir outputDir) order w = (w', RNil) →
  files w'
  = applyWrites (order ≫= collectionWrites config templateDir outputDir fs0) (files w).
Proof.
  intros Hperm Hapart Hagree Hrun.
  apply (forEach_files _ (collectionWrites config templateDir outputDir fs0)
           (λ e, templatePaths config templateDir e.1) fs0) in Hrun;
    [done|..].
  - intros x w0 w0'. apply generateCollection_files.
  - intros x t Hx Ht. apply Hagree. unfold templatesRead.
    apply list_elem_of_bind. exists x.1. split; [done|].
    apply elem_of_app. right. apply list_elem_of_fmap. exists x.
    split; [done|]. by rewrite <-Hperm.
  - intros x y t Hx Hy Ht Hin. apply collectionWrites_paths in Hin.
    apply (template_not_output pageNames entries x.1 t); [done| |done|].
    + apply elem_of_app. right. apply list_elem_of_fmap. exists x.
      split; [done|]. by rewrite <-Hperm.
    + apply elem_of_app. right. apply list_elem_of_bind. exists y.
      split; [done|]. by rewrite <-Hperm.
Qed.

End Order.

Section OrderIndependence.
Context `{Platform}.

(** C9 (amended). Take two successful runs over the same configuration and
    the same initial files that enumerate the pages and the collections in
    different orders. If different pages are written to different files,
    different collections to separate sets of files, and no file written is
    a template file the run reads, both runs leave the same files. And a
    collection renders its items in the order of the sequence: its log lines
    are those of the items that name an output file, in that order, and its
    writes are theirs, in that order. *)
Theorem rendering_order_independent_when_outputs_apart
    (config : Config) (templateDir outputDir : string)
    (pageNames1 pageNames2 : list string)
    (entries1 entries2 : list (string * Value))
    (w w1 w1' w2 w2' : World) :
  enumeratesPages config pageNames1 → enumeratesPages config pageNames2 →
  enumeratesCollections config entries1 → enumeratesCollections config entries2 →
  NoDup (pageOutput outputDir <$> pageNames1) →
  (∀ e e', e ∈ entries1 → e' ∈ entries1 → e.1 ≠ e'.1 →
     apart (collectionOutputs outputDir e.2) (collectionOutputs outputDir e'.2)) →
  apart (templatesRead config templateDir pageNames1 entries1)
        (outputsWritten outputDir pageNames1 entries1) →
  generatePages config templateDir outputDir pageNames1 w = (w1, RNil) →
  generateCollections config templateDir outputDir entries1 w1 = (w1', RNil) →
  generatePages config templateDir outputDir pageNames2 w = (w2, RNil) →
  generateCollections config templateDir outputDir entries2 w2 = (w2', RNil) →
  files w1' = files w2'
  ∧ (∀ entry wa wb,
       generateCollection config templateDir outputDir entry wa = (wb, RNil) →
       logs wb = logs wa ++ (itemLine <$> collectionOutputs outputDir entry.2)
       ∧ files wb
         = applyWrites (collectionWrites config templateDir outputDir (files wa) entry)
             (files wa)).
Proof.
  intros Hps1 Hps2 Hes1 Hes2 Hpages Hcolls Hapart Hp1 Hc1 Hp2 Hc2.
  split; cycle 1.
  { intros entry wa wb Hrun. split.
    - by apply generateCollection_logs in Hrun.
    - by apply generateCollection_files. }
  assert (Hps : pageNames2 ≡ₚ pageNames1).
  { unfold enumeratesPages in *. by rewrite Hps1, Hps2. }
  assert (Hes : entries2 ≡ₚ entries1).
  { unfold enumeratesCollections in *. by rewrite Hes1, Hes2. }
  (* the pages *)
  apply (generatePages_files _ _ _ pageNames1 pageNames1 entries1) in Hp1;
    [|done..].
  apply (generatePages_files _ _ _ pageNames1 pageNames2 entries1) in Hp2;
    [|done..].
  assert (Hw12 : files w1 = files w2).
  { rewrite Hp1, Hp2. apply applyWrites_blocks_perm; [done|].
    apply (separate_by_key (pageOutput outputDir)); [done|].
    intros x y p _ _ Hxy Hx Hy.
    apply pageWrites_paths in Hx, Hy. congruence. }
  (* the collections *)
  unfold generateCollections in Hc1, Hc2.
  destruct (Collections config) as [collections|] eqn:Hcs;
    [|by simplify_eq].
  assert (Hagree : ∀ w0 order, order ≡ₚ pageNames1 →
    files w0
    = applyWrites (order ≫= pageWrites config templateDir outputDir (files w))
        (files w) →
    ∀ t, t ∈ templatesRead config templateDir pageNames1 entries1 →
         files w0 !! t = files w !! t).
  { intros w0 order Horder -> t Ht. apply applyWrites_lookup_other.
    intros ([q c] & -> & Hin)%list_elem_of_fmap.
    apply list_elem_of_bind in Hin as (y & Hin & Hy).
    assert (Hq : q = pageOutput outputDir y).
    { apply (pageWrites_paths config templateDir outputDir (files w)).
      apply list_elem_of_fmap. by exists (q, c). }
    unfold apart in Hapart. rewrite Forall_forall in Hapart.
    apply (Hapart q Ht). apply elem_of_app. left.
    apply list_elem_of_fmap. exists y. split; [done|]. by rewrite <-Horder. }
  apply (generateCollections_files _ _ _ pageNames1 entries1 entries1 (files w))
    in Hc1; [|done|done|by apply (Hagree w1 pageNames1)].
  apply (generateCollections_files _ _ _ pageNames1 entries1 entries2 (files w))
    in Hc2; [|done|done|by apply (Hagree w2 pageNames2)].
  rewrite Hc1, Hc2, Hw12. apply applyWrites_blocks_perm; [done|].
  apply (separate_by_key fst).
  - unfold enumeratesCollections in Hes1. rewrite Hes1.
    apply NoDup_fst_map_to_list.
  - intros x y p Hx Hy Hxy Hpx Hpy.
    apply collectionWrites_paths in Hpx, Hpy.
    pose proof (Hcolls x y Hx Hy Hxy) as Hxy'.
    unfold apart in Hxy'. rewrite Forall_forall in Hxy'. by apply (Hxy' p).
Qed.

End OrderIndependence.

Lemma apart_pairwise_intro `{Platform} (outputDir : string)
    (entries : list (string * Value)) :
  Forall (λ e, Forall (λ e',
            e.1 = e'.1
            ∨ apart (collectionOutputs outputDir e.2) (collectionOutputs outputDir e'.2))
          entries) entries →
  ∀ e e', e ∈ entries → e' ∈ entries → e.1 ≠ e'.1 →
    apart (collectionOutputs outputDir e.2) (collectionOutputs outputDir e'.2).
Proof.
  intros Hall e e' He He' Hne.
  rewrite Forall_forall in Hall. specialize (Hall e He).
  rewrite Forall_forall in Hall. by destruct (Hall e' He').
Qed.

Lemma rendering_order_independent_when_outputs_apart_witness :
  let pageNames := (map_to_list (Pages Sample.fullConfig)).*1 in
  let entries := map_to_list (default ∅ (Collections Sample.fullConfig)) in
  let run ps es :=
    (@generateCollections Sample.platform Sample.fullConfig "tpl/pages" "out" es
       (@generatePages Sample.platform Sample.fullConfig "tpl/pages" "out" ps
          Sample.fullWorld).1).1 in
  files (run pageNames entries) = files (run (reverse pageNames) (reverse entries)).
Proof.
  intros pageNames entries run.
  refine (proj1 (@rendering_order_independent_when_outputs_apart Sample.platform
            Sample.fullConfig "tpl/pages" "out"
            pageNames (reverse pageNames) entries (reverse entries)
            Sample.fullWorld _ _ _ _ _ _ _ _ _ _ _ _ _ _ _)).
  - unfold enumeratesPages. reflexivity.
  - unfold enumeratesPages. apply reverse_Permutation.
  - unfold enumeratesCollections. reflexivity.
  - unfold enumeratesCollections. apply reverse_Permutation.
  - apply (bool_decide_unpack _). vm_compute. reflexivity.
  - apply (@apart_pairwise_intro Sample.platform).
    apply (bool_decide_unpack _). vm_compute. reflexivity.
  - apply (bool_decide_unpack _). vm_compute. reflexivity.
  - vm_compute. reflexivity.
  - vm_compute. reflexivity.
  - vm_compute. reflexivity.
  - vm_compute. reflexivity.
Defined.

Example full_run :
  let r := @main Sample.platform Sample.fullConfig "tpl" "out"
             (map_to_list (Pages Sample.fullConfig)).*1
             (map_to_list (default ∅ (Collections Sample.fullConfig)))
             Sample.fullWorld in
  r.2 = Success
  ∧ files r.1 = {[ "out/index.html" := "MySite: Home";
                   "out/about.html" := "MySite: About";
                   "out/post1.html" := "MySite: A";
                   "out/post2.html" := "MySite: B";
                   "out/talk1.html" := "MySite: T" ]}.
Proof. vm_compute. split; reflexivity. Qed.

(** Each of the other two conditions is needed as well: two page names that
    are cleaned to one path, and an output that overwrites a template. *)
Example colliding_pages_depend_on_order :
  let run ps := (@generatePages Sample.platform Sample.dotPagesConfig "tpl/pages" "out"
                   ps Sample.dotPagesWorld) in
  (run ["a"; "./a"]).2 = RNil ∧ (run ["./a"; "a"]).2 = RNil
  ∧ files (run ["a"; "./a"]).1 !! "out/a.html" = Some "two"
  ∧ files (run ["./a"; "a"]).1 !! "out/a.html" = Some "one".
Proof. vm_compute. split_and!; reflexivity. Qed.

Example overwritten_template_depends_on_order :
  let run ps := (@generatePages Sample.platform Sample.inPlaceConfig "site" "site"
                   ps Sample.inPlaceWorld) in
  (run ["base"; "index"]).2 = RNil ∧ (run ["index"; "base"]).2 = RNil
  ∧ files (run ["base"; "index"]).1 !! "site/index.html" = Some "MySite: B"
  ∧ files (run ["index"; "base"]).1 !! "site/index.html" = Some "MySite: Home".
Proof. vm_compute. split_and!; reflexivity. Qed.

(** ** The head of the program *)

(** The whole program on the sample network: fetch the configuration, then
    render with it. *)
Example fetch_configuration_run :
  let r := @mainFromArgs Sample.platform SampleNet.services "0001" "config.yml" "."
             (λ _, []) (λ _, []) SampleNet.emptyDisk in
  r.2 = Success ∧ files r.1 = {[ "config.yml" := "site" ]}.
Proof. vm_compute. split; reflexivity. Qed.

Example render_run :
  let r := @mainFromArgs Sample.platform SampleNet.services EmptyString "config.yml" "out"
             (λ config, (map_to_list (Pages config)).*1)
             (λ config, map_to_list (default ∅ (Collections config)))
             SampleNet.siteDisk in
  r.2 = Success
  ∧ files r.1 = {[ "config.yml" := "site"; "out/index.html" := "MySite: Hi" ]}
  ∧ logs r.1 = ["Config is valid!";
                "Downloading template '0001'...";
                "Downloaded: pages/base.html";
                "Downloaded: pages/index.html";
                "Template downloaded to: tmp/portfolio-template-1/templates/0001";
                "Generated page: out/index.html";
                "Portfolio generation completed successfully!"].
Proof. vm_compute. split_and!; reflexivity. Qed.

(** ** More on the two generators *)

(** An invariant of every iteration is an invariant of the loop. *)
Section LoopInvariant.
Context {A : Type} (body : A → World → World * Result).
Context (R : World → World → Prop) `{!Reflexive R} `{!Transitive R}.

Lemma forEach_invariant (l : list A) (w : World) :
  (∀ x w0, x ∈ l → R w0 (body x w0).1) →
  R w (forEach body l w).1.
Proof.
  revert w. induction l as [|x l IH]; intros w Hbody; simpl; [done|].
  pose proof (Hbody x w (list_elem_of_here _ _)) as Hx.
  destruct (body x w) as [w1 r]. simpl in Hx.
  destruct r; try done.
  trans w1; [done|]. apply IH. intros y w0 Hy. apply Hbody.
  by apply list_elem_of_further.
Qed.

End LoopInvariant.

Lemma forEach_app_inv {A : Type} (body : A → World → World * Result)
    (l1 l2 : list A) (w w' : World) :
  forEach body (l1 ++ l2) w = (w', RNil) →
  ∃ w1, forEach body l1 w = (w1, RNil) ∧ forEach body l2 w1 = (w', RNil).
Proof.
  revert w. induction l1 as [|x l1 IH]; intros w Hrun; simpl in *.
  - by exists w.
  - destruct (body x w) as [w1 r]. destruct r; try done. by apply IH.
Qed.

Section Generators.
Context `{Platform}.
Context (config : Config) (templateDir outputDir : string).

(** X1. The keys of the page are copied over the ["base"] entry one at a
    time, in whatever order the map is enumerated: every enumeration gives
    the same data. *)
Theorem merge_order_is_irrelevant
    (base pageCtx : gmap string Value) (order : list (string * Value)) :
  order ≡ₚ map_to_list pageCtx →
  foldl (λ data kv, <[kv.1 := kv.2]> data) {[ "base" := VMap base ]} order
  = pageData base (VMap pageCtx)
  ∧ pageData base (VMap pageCtx) = itemData base (VMap pageCtx).
Proof.
  intros Horder. split; [|done].
  rewrite (merge_any_order pageCtx) by done.
  unfold pageData. simpl. by rewrite merge_loop_union.
Qed.

Lemma generatePage_not_panic (pageName : string) (w : World) (msg : string) :
  (generatePage config templateDir outputDir pageName w).2 ≠ RPanic msg.
Proof.
  unfold generatePage.
  destruct (parseTemplates _ _ _ _); [|done].
  destruct (os_Create _ w); [|done].
  by destruct (executePage _ _ _) as [? []].
Qed.

(** X2. [generatePages] never panics: it ends with nil or with an error. *)
Theorem generatePages_never_panics
    (pageNames : list string) (w : World) (msg : string) :
  (generatePages config templateDir outputDir pageNames w).2 ≠ RPanic msg.
Proof.
  unfold generatePages. revert w.
  induction pageNames as [|p ps IH]; intros w; simpl; [done|].
  pose proof (generatePage_not_panic p w msg) as Hp.
  by destruct (generatePage config templateDir outputDir p w) as [w1 []].
Qed.

Lemma generateItem_panic_inv (tmpl : Template) (item : Value) (w : World)
    (msg : string) :
  (generateItem config outputDir tmpl item w).2 = RPanic msg →
  asMap item = None ∧ msg = conversionPanic item.
Proof.
  unfold generateItem. destruct item as [| | | | |fields|]; simpl;
    try (intros [= <-]; done).
  destruct (fields !! "output_file") as [outputFile|]; [|done].
  destruct (asString outputFile); [|done].
  destruct (os_Create _ w); [|done].
  by destruct (executeItem _ _ _) as [? []].
Qed.

Lemma generateItems_panic_inv (tmpl : Template) (items : list Value) (w : World)
    (msg : string) :
  (forEach (generateItem config outputDir tmpl) items w).2 = RPanic msg →
  ∃ item, item ∈ items ∧ asMap item = None ∧ msg = conversionPanic item.
Proof.
  revert w. induction items as [|item items IH]; intros w; simpl; [done|].
  pose proof (generateItem_panic_inv tmpl item w msg) as Hitem.
  destruct (generateItem config outputDir tmpl item w) as [w1 r].
  destruct r as [|e|m]; simpl in *.
  - intros (i & ? & ?)%IH. exists i. split; [by apply list_elem_of_further|done].
  - done.
  - intros Hm. exists item. split; [apply list_elem_of_here|by apply Hitem].
Qed.

(** X3. [generateCollections] panics only on a collection value that is no
    mapping or on an item that is no mapping, and the message is that of the
    failed conversion; where every collection and every item is a mapping,
    it ends with nil or with an error. *)
Theorem generateCollections_panics_only_on_non_mappings
    (entries : list (string * Value)) (w : World) (msg : string) :
  (generateCollections config templateDir outputDir entries w).2 = RPanic msg →
  ∃ entry, entry ∈ entries
    ∧ ((asMap entry.2 = None ∧ msg = conversionPanic entry.2)
       ∨ ∃ item, item ∈ collectionItems entry.2
           ∧ asMap item = None ∧ msg = conversionPanic item).
Proof.
  unfold generateCollections. destruct (Collections config); [|done].
  revert w. induction entries as [|[name data] entries IH]; intros w;
    cbn [forEach]; [done|].
  destruct (generateCollection config templateDir outputDir (name, data) w)
    as [w1 r] eqn:Hentry.
  destruct r as [|e|m]; cbn [snd].
  - intros (e & ? & ?)%IH. exists e. split; [by apply list_elem_of_further|done].
  - done.
  - intros [= ->]. exists (name, data). split; [apply list_elem_of_here|].
    unfold generateCollection, collectionItems in *. simpl.
    destruct data as [| | | | |fields|]; simpl in *;
      try (left; split; [done|congruence]).
    right. destruct (asSlice (index fields "items")) as [items|]; [|done].
    destruct (parseTemplates _ _ _ _) as [tmpl|]; [|done].
    apply (generateItems_panic_inv tmpl items w). by rewrite Hentry.
Qed.

End Generators.

Section Footprints.
Context `{Platform}.
Context (config : Config) (templateDir outputDir : string).

Local Instance mayChange_refl paths : Reflexive (mayChange paths).
Proof. by intros w. Qed.

Local Instance mayChange_trans paths : Transitive (mayChange paths).
Proof.
  intros w0 w1 w2 (Hd1 & Hl1 & Hf1) (Hd2 & Hl2 & Hf2). split_and!.
  - by rewrite Hd2.
  - by trans (logs w1).
  - intros q Hq. by rewrite Hf2, Hf1.
Qed.

Lemma generatePage_mayChange (paths : list string) (pageName : string) (w : World) :
  pageOutput outputDir pageName ∈ paths →
  mayChange paths w (generatePage config templateDir outputDir pageName w).1.
Proof.
  intros Hin. unfold generatePage, os_Create.
  destruct (parseTemplates _ _ _ _); [|done].
  destruct (os_Create_error w _); [done|].
  assert (Hfiles : ∀ written q, q ∉ paths →
    <[filepath_Join outputDir (pageName +:+ ".html") := written]>
      (<[filepath_Join outputDir (pageName +:+ ".html") := EmptyString]> (files w)) !! q
    = files w !! q).
  { intros written q Hq. rewrite !lookup_insert_ne; [done|..];
      intros <-; by apply Hq. }
  destruct (executePage _ _ _) as [written [e|]]; simpl.
  - split_and!; [done|done|apply Hfiles].
  - split_and!; [done|by apply prefix_app_r|apply Hfiles].
Qed.

Lemma generatePages_mayChange (pageNames : list string) (w : World) :
  mayChange (pageOutput outputDir <$> pageNames) w
    (generatePages config templateDir outputDir pageNames w).1.
Proof.
  apply (forEach_invariant _ (mayChange (pageOutput outputDir <$> pageNames))).
  intros p w0 Hp. apply generatePage_mayChange.
  apply list_elem_of_fmap. by exists p.
Qed.

(** X4. Whatever its result, [generatePages] writes no file but the output
    files of the pages it is given, creates no directory, and only adds to
    the log. *)
Theorem generatePages_touches_only_page_outputs
    (pageNames : list string) (w : World) :
  let w' := (generatePages config templateDir outputDir pageNames w).1 in
  dirs w' = dirs w
  ∧ logs w `prefix_of` logs w'
  ∧ ∀ q, q ∉ pageOutput outputDir <$> pageNames → files w' !! q = files w !! q.
Proof. apply generatePages_mayChange. Qed.

Lemma generateItem_mayChange (paths : list string) (tmpl : Template)
    (item : Value) (w : World) :
  (∀ path, itemOutput outputDir item = Some path → path ∈ paths) →
  mayChange paths w (generateItem config outputDir tmpl item w).1.
Proof.
  intros Hin. unfold generateItem, itemOutput, os_Create in *.
  destruct item as [| | | | |fields|]; try done. simpl in Hin.
  destruct (fields !! "output_file") as [outputFile|]; [|done]. simpl in Hin.
  destruct (asString outputFile) as [outputFileName|]; [|done]. simpl in Hin.
  specialize (Hin _ eq_refl).
  destruct (os_Create_error w _); [done|].
  assert (Hfiles : ∀ written q, q ∉ paths →
    <[filepath_Join outputDir outputFileName := written]>
      (<[filepath_Join outputDir outputFileName := EmptyString]> (files w)) !! q
    = files w !! q).
  { intros written q Hq. rewrite !lookup_insert_ne; [done|..];
      intros <-; by apply Hq. }
  destruct (executeItem _ _ _) as [written [e|]]; simpl.
  - split_and!; [done|done|apply Hfiles].
  - split_and!; [done|by apply prefix_app_r|apply Hfiles].
Qed.

Lemma generateCollection_mayChange (paths : list string)
    (entry : string * Value) (w : World) :
  (∀ path, path ∈ collectionOutputs outputDir entry.2 → path ∈ paths) →
  mayChange paths w (generateCollection config templateDir outputDir entry w).1.
Proof.
  destruct entry as [name data]. intros Hin.
  unfold generateCollection, collectionOutputs, collectionItems in *. simpl in *.
  destruct data as [| | | | |fields|]; try done. simpl in Hin.
  destruct (asSlice (index fields "items")) as [items|]; [|done]. simpl in Hin.
  destruct (parseTemplates _ _ _ _) as [tmpl|]; [|done].
  apply (forEach_invariant _ (mayChange paths)).
  intros item w0 Hitem. apply generateItem_mayChange.
  intros path Hpath. apply Hin, list_elem_of_omap. by exists item.
Qed.

(** X5. Whatever its result, be it a panic, [generateCollections] writes no
    file but those its items name, creates no directory, and only adds to
    the log. *)
Theorem generateCollections_touches_only_item_outputs
    (entries : list (string * Value)) (w : World) :
  let w' := (generateCollections config templateDir outputDir entries w).1 in
  dirs w' = dirs w
  ∧ logs w `prefix_of` logs w'
  ∧ ∀ q, q ∉ entries ≫= (λ entry, collectionOutputs outputDir entry.2) →
         files w' !! q = files w !! q.
Proof.
  unfold generateCollections. destruct (Collections config); [|done].
  apply (forEach_invariant _
           (mayChange (entries ≫= λ entry, collectionOutputs outputDir entry.2))).
  intros entry w0 Hentry. apply generateCollection_mayChange.
  intros path Hpath. apply list_elem_of_bind. by exists entry.
Qed.

(** X6. A successful [generatePages] has logged one line per page, in the
    order of the enumeration, and has left a file for every page. *)
Theorem generatePages_success_writes_and_logs_every_page
    (pageNames : list string) (w w' : World) :
  generatePages config templateDir outputDir pageNames w = (w', RNil) →
  logs w'
  = logs w ++ ((λ p, "Generated page: " +:+ pageOutput outputDir p) <$> pageNames)
  ∧ ∀ p, p ∈ pageNames → is_Some (files w' !! pageOutput outputDir p).
Proof.
  unfold generatePages. revert w.
  induction pageNames as [|p ps IH]; intros w Hrun; cbn [forEach] in Hrun.
  - injection Hrun as <-. split; [by rewrite app_nil_r|]. by intros p ?%elem_of_nil.
  - destruct (generatePage config templateDir outputDir p w) as [w1 r] eqn:Hp.
    destruct r; try done.
    destruct (IH _ Hrun) as [Hlogs Hfiles].
    assert (Hw1 : logs w1 = logs w ++ ["Generated page: " +:+ pageOutput outputDir p]
                  ∧ is_Some (files w1 !! pageOutput outputDir p)).
    { unfold generatePage, os_Create, pageOutput in *.
      destruct (parseTemplates _ _ _ _); [|done].
      destruct (os_Create_error w _); [done|].
      destruct (executePage _ _ _) as [written [e|]]; [done|].
      injection Hp as <-. simpl. split; [done|].
      rewrite lookup_insert_eq. by eexists. }
    destruct Hw1 as [Hlog1 Hfile1]. split.
    + rewrite Hlogs, Hlog1, fmap_cons, <-app_assoc. done.
    + intros q [Heq|Hq]%elem_of_cons; [subst q|by apply Hfiles].
      rename p into q.
      destruct (decide (pageOutput outputDir q ∈ pageOutput outputDir <$> ps))
        as [Hin|Hnotin].
      * apply list_elem_of_fmap in Hin as (q' & -> & Hq'). by apply Hfiles.
      * pose proof (generatePages_mayChange ps w1) as (_ & _ & Hframe).
        unfold generatePages in Hframe. rewrite Hrun in Hframe. simpl in Hframe.
        by rewrite Hframe.
Qed.

(** X7. When the output file of a page cannot be created, [generatePages]
    returns an error that names the file and has written nothing for that
    page; the pages after it are not rendered. *)
Theorem create_failure_is_reported
    (before after : list string) (pageName : string) (w w1 : World)
    (tmpl : Template) (err : string) :
  generatePages config templateDir outputDir before w = (w1, RNil) →
  parseTemplates config templateDir
    (filepath_Join templateDir (pageName +:+ ".html")) (files w1) = inl tmpl →
  os_Create_error w1 (pageOutput outputDir pageName) = Some err →
  generatePages config templateDir outputDir (before ++ pageName :: after) w
  = (w1, RError ("error creating output file " +:+ pageOutput outputDir pageName
                 +:+ ": " +:+ err)).
Proof.
  intros Hbefore Hparse Hcreate. unfold generatePages in *.
  apply (forEach_stop _ _ _ _ _ _ _ _ Hbefore); [|done].
  unfold generatePage, os_Create, pageOutput in *. by rewrite Hparse, Hcreate.
Qed.

End Footprints.

Section Collections.
Context `{Platform}.
Context (config : Config) (templateDir outputDir : string).

(** X8. A collection that has an [items] sequence, be it empty, fails the
    run when its template file is absent, before any item is looked at. *)
Theorem collection_with_items_needs_its_template
    (name : string) (fields : gmap string Value) (items : list Value) (w : World) :
  asSlice (index fields "items") = Some items →
  files w !! filepath_Join templateDir (name +:+ ".html") = None →
  ∃ cause,
    generateCollection config templateDir outputDir (name, VMap fields) w
    = (w, RError ("error parsing templates for collection " +:+ name
                  +:+ ": " +:+ cause)).
Proof.
  intros Hitems Hmissing.
  destruct (parseTemplates_missing config templateDir
              (filepath_Join templateDir (name +:+ ".html")) (files w))
    as (cause & Hparse & _); [by left|].
  exists cause. simpl. by rewrite Hitems, Hparse.
Qed.

Lemma itemWrite_paths (tmpl : Template) (items : list Value) (p : string) :
  p ∈ (omap (itemWrite config outputDir tmpl) items).*1 →
  p ∈ omap (itemOutput outputDir) items.
Proof.
  intros ([q c] & -> & Hin)%list_elem_of_fmap.
  apply list_elem_of_omap in Hin as (item & Hitem & Hwrite).
  apply list_elem_of_omap. exists item. split; [done|].
  unfold itemWrite in Hwrite.
  destruct (itemOutput outputDir item); simpl in *; by simplify_eq.
Qed.

(** X9. In a collection that renders without error, a file holds the
    rendering of the last item of the sequence that names it. *)
Theorem last_item_naming_a_file_decides_it
    (tmpl : Template) (before after : list Value) (item : gmap string Value)
    (outputFileName : string) (w w' : World) :
  forEach (generateItem config outputDir tmpl) (before ++ VMap item :: after) w
  = (w', RNil) →
  item !! "output_file" = Some (VString outputFileName) →
  filepath_Join outputDir outputFileName ∉ omap (itemOutput outputDir) after →
  files w' !! filepath_Join outputDir outputFileName
  = Some (executeItem config tmpl (VMap item)).1.
Proof.
  intros Hrun Hname Hafter.
  apply generateItems_files in Hrun. rewrite Hrun, omap_app, applyWrites_app.
  assert (Hitem : itemWrite config outputDir tmpl (VMap item)
                  = Some (filepath_Join outputDir outputFileName,
                          (executeItem config tmpl (VMap item)).1)).
  { unfold itemWrite, itemOutput. simpl. by rewrite Hname. }
  cbn [omap list_omap]. rewrite Hitem.
  change (applyWrites (?x :: ?l) ?fs) with (applyWrites l (<[x.1 := x.2]> fs)).
  rewrite applyWrites_lookup_other.
  - apply lookup_insert_eq.
  - intros Hin. by apply Hafter, (itemWrite_paths tmpl).
Qed.

End Collections.

Section Main.
Context `{Platform}.

(** X10. Once the output directory exists, [main] ends with success exactly
    when both generators return nil, whatever became of the assets; it has
    then logged the completion and removed the template directory. When the
    output directory cannot be created, nothing is copied or rendered. *)
Theorem main_succeeds_iff_generators_do
    (config : Config) (templateDir outputDir : string)
    (pageNames : list string) (entries : list (string * Value)) (w wa w' : World) :
  let pagesDir := templateDir +:+ "/pages" in
  os_MkdirAll outputDir w = (wa, None) →
  main config templateDir outputDir pageNames entries w = (w', Success)
  ↔ ∃ w1 w2,
      generatePages config pagesDir outputDir pageNames
        (copyAssets pagesDir outputDir wa).1 = (w1, RNil)
      ∧ generateCollections config pagesDir outputDir entries w1 = (w2, RNil)
      ∧ w' = os_RemoveAll templateDir
               (logPrintln "Portfolio generation completed successfully!" w2).
Proof.
  intros pagesDir Hmk. unfold main. rewrite Hmk. fold pagesDir.
  pose proof (copyAssets_returns_nil pagesDir outputDir wa) as Hcopy.
  destruct (copyAssets pagesDir outputDir wa) as [wb r]. simpl in Hcopy. subst r.
  simpl.
  destruct (generatePages config pagesDir outputDir pageNames wb) as [w1 r1].
  unfold logFatalf, crash.
  destruct r1 as [|e|m];
    [|split; [done|intros (? & ? & ? & ? & ?); simplify_eq]..].
  destruct (generateCollections config pagesDir outputDir entries w1)
    as [w2 r2] eqn:Hcolls.
  destruct r2 as [|e|m];
    [|split; [done|intros (x1 & x2 & Hx1 & Hx2 & _); injection Hx1 as <-;
              by rewrite Hcolls in Hx2]..].
  split.
  - intros [= <-]. exists w1, w2. by split_and!.
  - intros (x1 & x2 & Hx1 & Hx2 & ->). injection Hx1 as <-.
    rewrite Hcolls in Hx2. by injection Hx2 as <-.
Qed.


End Main.

(** ** Download, validation and the two modes of the program *)

Lemma stripPrefix_Some (prefix s rest : string) :
  stripPrefix prefix s = Some rest ↔ s = prefix +:+ rest.
Proof.
  revert s. induction prefix as [|a prefix IH]; intros s; simpl.
  - split; [by intros [= ->]|by intros ->].
  - destruct s as [|b s]; [done|].
    destruct (Ascii.eqb a b) eqn:Hab.
    + apply Ascii.eqb_eq in Hab as ->. rewrite IH.
      split; [by intros ->|by intros [= ->]].
    + apply Ascii.eqb_neq in Hab. split; [done|]. intros [= ? _]. by destruct Hab.
Qed.

Lemma HasPrefix_true (s prefix : string) :
  HasPrefix s prefix = true
  ↔ ∃ rest, s = prefix +:+ rest ∧ TrimPrefix s prefix = rest.
Proof.
  unfold HasPrefix, TrimPrefix. rewrite bool_decide_eq_true. split.
  - intros [rest Hrest]. exists rest. rewrite Hrest.
    split; [by apply stripPrefix_Some|done].
  - intros (rest & Hs%stripPrefix_Some & _). by eexists.
Qed.

Lemma selectTemplateFiles_filter (templatePrefix : string)
    (tree : list GitHubTreeItem) :
  selectTemplateFiles templatePrefix tree
  = Path <$> filter (λ item, HasPrefix (Path item) templatePrefix
                             && String.eqb (Type_ item) "blob" = true) tree.
Proof.
  unfold selectTemplateFiles.
  assert (Hacc : ∀ acc,
    foldl (λ templateFiles item,
             if HasPrefix (Path item) templatePrefix
                && String.eqb (Type_ item) "blob"
             then templateFiles ++ [Path item] else templateFiles) acc tree
    = acc ++ (Path <$> filter (λ item, HasPrefix (Path item) templatePrefix
                               && String.eqb (Type_ item) "blob" = true) tree)).
  { induction tree as [|item tree IH]; intros acc; simpl.
    - by rewrite app_nil_r.
    - rewrite IH, filter_cons.
      destruct (HasPrefix (Path item) templatePrefix
                && String.eqb (Type_ item) "blob") eqn:Hkeep.
      + rewrite decide_True by done. by rewrite <-app_assoc.
      + by rewrite decide_False by done. }
  apply Hacc.
Qed.

Lemma logged_lines (f : string → string) (lines : list string) (w : World) :
  let w' := foldl (λ w line, logPrintln (f line) w) w lines in
  files w' = files w ∧ dirs w' = dirs w ∧ logs w' = logs w ++ (f <$> lines).
Proof.
  revert w. induction lines as [|line lines IH]; intros w; simpl.
  - by rewrite app_nil_r.
  - destruct (IH (logPrintln (f line) w)) as (-> & -> & ->).
    simpl. by rewrite <-app_assoc.
Qed.

Section HeadProperties.
Context `{Platform} `{Services}.

Lemma selectTemplateFiles_elem (templatePrefix : string)
    (tree : list GitHubTreeItem) (filePath : string) :
  filePath ∈ selectTemplateFiles templatePrefix tree
  ↔ ∃ item relPath,
      item ∈ tree ∧ Path item = filePath ∧ Type_ item = "blob"
      ∧ filePath = templatePrefix +:+ relPath
      ∧ TrimPrefix filePath templatePrefix = relPath.
Proof.
  rewrite selectTemplateFiles_filter, list_elem_of_fmap. split.
  - intros (item & -> & [Hkeep Hitem]%list_elem_of_filter).
    apply andb_true_iff in Hkeep as [Hprefix Hblob].
    apply HasPrefix_true in Hprefix as (relPath & Hpath & Htrim).
    apply String.eqb_eq in Hblob. by exists item, relPath.
  - intros (item & relPath & Hitem & <- & Hblob & Hpath & Htrim).
    exists item. split; [done|]. apply list_elem_of_filter. split; [|done].
    apply andb_true_iff. split.
    + apply HasPrefix_true. by exists relPath.
    + by apply String.eqb_eq.
Qed.

(** X12. The files fetched for a template are exactly the blobs of the tree
    whose path starts with the template's prefix, in the order of the tree;
    the relative path under which each is stored is what follows the
    prefix. *)
Theorem selected_files_are_the_blobs_under_the_prefix
    (templatePrefix : string) (tree : list GitHubTreeItem) :
  (∀ filePath,
     filePath ∈ selectTemplateFiles templatePrefix tree
     ↔ ∃ item relPath,
         item ∈ tree ∧ Path item = filePath ∧ Type_ item = "blob"
         ∧ filePath = templatePrefix +:+ relPath
         ∧ TrimPrefix filePath templatePrefix = relPath)
  ∧ selectTemplateFiles templatePrefix tree `sublist_of` Path <$> tree.
Proof.
  split; [apply selectTemplateFiles_elem|].
  rewrite selectTemplateFiles_filter. apply fmap_sublist, sublist_filter.
Qed.

Lemma downloadFile_returned_inv (url filepath : string) (w w' : World) :
  downloadFile url filepath w = (w', Returned ()) →
  ∃ resp,
    http_Get url w = inl resp ∧ StatusCode resp = 200%Z ∧ BodyError resp = None
    ∧ files w' = <[filepath := Body resp]> (files w)
    ∧ dirs w' = dirs w ∧ logs w' = logs w.
Proof.
  unfold downloadFile, os_Create, fatalf. intros Hrun.
  destruct (http_Get url w) as [resp|]; [|done]. exists resp.
  case_bool_decide as Hstatus; [done|].
  destruct (os_Create_error w filepath); [done|].
  destruct (BodyError resp); [done|].
  injection Hrun as <-. simpl. split_and!; try done.
  by rewrite insert_insert_eq.
Qed.

(** X13. [downloadFile] returns only after an answer with status 200 whose
    body arrived whole; the file then holds that body, and nothing else has
    changed. *)
Theorem downloadFile_returns_only_with_the_body
    (url filepath : string) (w w' : World) :
  downloadFile url filepath w = (w', Returned ()) →
  ∃ resp,
    http_Get url w = inl resp ∧ StatusCode resp = 200%Z ∧ BodyError resp = None
    ∧ files w' = <[filepath := Body resp]> (files w)
    ∧ dirs w' = dirs w ∧ logs w' = logs w.
Proof. apply downloadFile_returned_inv. Qed.

Lemma downloadFile_mayChange (url filepath : string) (w : World) :
  mayChange [filepath] w (downloadFile url filepath w).1.
Proof.
  unfold downloadFile, os_Create, fatalf.
  assert (Hlog : ∀ msg, mayChange [filepath] w (logPrintln msg w)).
  { intros msg. split_and!; [done|by apply prefix_app_r|done]. }
  destruct (http_Get url w) as [resp|]; [|apply Hlog].
  case_bool_decide; [apply Hlog|].
  destruct (os_Create_error w filepath); [apply Hlog|].
  assert (Hfiles : ∀ q, q ∉ [filepath] →
    <[filepath := Body resp]> (<[filepath := EmptyString]> (files w)) !! q
    = files w !! q).
  { intros q Hq. rewrite !lookup_insert_ne; [done|..];
      intros <-; apply Hq, list_elem_of_here. }
  destruct (BodyError resp); simpl.
  - split_and!; [done|by apply prefix_app_r|apply Hfiles].
  - split_and!; [done|done|apply Hfiles].
Qed.

(** X14. Whatever the outcome, [downloadFile] writes no file but its target;
    and on an answer with another status than 200 it writes nothing at all
    and ends the process with a message that gives the status. *)
Theorem downloadFile_touches_only_its_target
    (url filepath : string) (w : World) :
  let r := downloadFile url filepath w in
  mayChange [filepath] w r.1
  ∧ ∀ resp, http_Get url w = inl resp → StatusCode resp ≠ 200%Z →
      files r.1 = files w
      ∧ r.2 = Exited ("Failed to download file: " +:+ url +:+ ", status code: "
                      +:+ pretty (StatusCode resp)).
Proof.
  split; [apply downloadFile_mayChange|].
  intros resp Hget Hstatus. unfold downloadFile, fatalf. rewrite Hget.
  by rewrite bool_decide_eq_true_2.
Qed.

(** X15. One file of the template is fetched from its raw URL and stored
    under the template path at its path relative to the prefix, in a
    directory created for it; then its relative path is logged. *)
Theorem downloaded_file_lands_under_template_path
    (templatePath templatePrefix filePath : string) (w w' : World) :
  let relPath := TrimPrefix filePath templatePrefix in
  let localPath := filepath_Join templatePath relPath in
  downloadTemplateFile templatePath templatePrefix filePath w = (w', Returned ()) →
  ∃ wd resp,
    os_MkdirAll (filepath_Dir localPath) w = (wd, None)
    ∧ http_Get (rawBase +:+ filePath) wd = inl resp
    ∧ StatusCode resp = 200%Z
    ∧ files w' = <[localPath := Body resp]> (files wd)
    ∧ logs w' = logs wd ++ ["Downloaded: " +:+ relPath].
Proof.
  intros relPath localPath. unfold downloadTemplateFile, fatalf.
  fold relPath. fold localPath.
  destruct (os_MkdirAll (filepath_Dir localPath) w) as [wd [err|]]; [done|].
  destruct (downloadFile (rawBase +:+ filePath) localPath wd) as [w1 [[]|msg]] eqn:Hdl;
    [|done].
  intros [= <-].
  apply downloadFile_returned_inv in Hdl
    as (resp & Hget & Hstatus & _ & Hfiles & _ & Hlogs).
  exists wd, resp. simpl. by rewrite Hfiles, Hlogs.
Qed.

(** X16. When no blob of the tree lies under the template's prefix, the
    process ends with [no files found for template] and no file is
    written. *)
Theorem template_without_files_is_fatal
    (templateId tempDir : string) (w w0 : World) (resp : Response)
    (tree : list GitHubTreeItem) :
  let w1 := logPrintln ("Downloading template '" +:+ templateId +:+ "'...") w0 in
  let msg := "no files found for template '" +:+ templateId +:+ "'" in
  os_MkdirTemp EmptyString "portfolio-template-*" w = inl (tempDir, w0) →
  http_Get treeURL w1 = inl resp →
  StatusCode resp = 200%Z →
  json_DecodeTree resp = inl tree →
  (∀ item relPath, item ∈ tree → Type_ item = "blob" →
     Path item ≠ templatePrefixOf templateId +:+ relPath) →
  downloadTemplateFromGitHub templateId w = (logPrintln msg w1, Exited msg)
  ∧ files (logPrintln msg w1) = files w0.
Proof.
  intros w1 msg Htemp Hget Hstatus Hdecode Hnone. split; [|done].
  unfold downloadTemplateFromGitHub. rewrite Htemp. fold w1.
  rewrite Hget, bool_decide_eq_false_2, Hdecode by (by intros ?).
  assert (Hempty : selectTemplateFiles (templatePrefixOf templateId) tree = []).
  { apply elem_of_nil_inv. intros filePath Hin.
    apply selectTemplateFiles_elem in Hin
      as (item & relPath & Hitem & <- & Hblob & Hpath & _).
    by apply (Hnone item relPath). }
  by rewrite Hempty.
Qed.

(** X17. [downloadTemplateFromGitHub] returns only when the tree was
    fetched with status 200 and holds at least one file of the template;
    what it returns is the folder [templates/<id>] of the temporary
    directory, and the last line logged names it. *)
Theorem downloaded_template_path
    (templateId path : string) (w w' : World) :
  downloadTemplateFromGitHub templateId w = (w', Returned path) →
  ∃ tempDir w0 resp tree,
    os_MkdirTemp EmptyString "portfolio-template-*" w = inl (tempDir, w0)
    ∧ path = filepath_Join (filepath_Join tempDir "templates") templateId
    ∧ http_Get treeURL
        (logPrintln ("Downloading template '" +:+ templateId +:+ "'...") w0)
      = inl resp
    ∧ StatusCode resp = 200%Z
    ∧ json_DecodeTree resp = inl tree
    ∧ selectTemplateFiles (templatePrefixOf templateId) tree ≠ []
    ∧ last (logs w') = Some ("Template downloaded to: " +:+ path).
Proof.
  unfold downloadTemplateFromGitHub, fatalf. intros Hrun.
  destruct (os_MkdirTemp _ _ w) as [[tempDir w0]|]; [|done].
  destruct (http_Get treeURL _) as [resp|] eqn:Hget; [|done].
  case_bool_decide as Hstatus; [done|].
  destruct (json_DecodeTree resp) as [tree|] eqn:Hdecode; [|done].
  case_bool_decide as Hlen; [done|].
  destruct (forEachOrExit _ _ _) as [w2 [[]|msg]]; [|done].
  injection Hrun as <- <-.
  exists tempDir, w0, resp, tree. split_and!; try done.
  - intros Hnil. apply Hlen. by rewrite Hnil.
  - simpl. apply last_snoc.
Qed.

End HeadProperties.

Section Modes.
Context `{Platform} `{Services}.

Lemma validateConfig_frame (uri : string) (config : Config) (w : World) :
  files (validateConfig uri config w).1 = files w
  ∧ dirs (validateConfig uri config w).1 = dirs w.
Proof.
  unfold validateConfig, fatalf.
  destruct (json_Marshal config) as [document|err]; [|done].
  destruct (gojsonschema_Validate uri document w) as [errors|err]; [|done].
  case_bool_decide; [done|].
  by pose proof (logged_lines (λ desc, "- " +:+ desc) errors w) as (? & ? & _).
Qed.

Lemma validateConfig_rejected (uri document : string) (config : Config)
    (errors : list string) (w : World) :
  json_Marshal config = inl document →
  gojsonschema_Validate uri document w = inl errors →
  errors ≠ [] →
  (validateConfig uri config w).2
  = Exited "Config validation failed, please fix the resulted error and try again".
Proof.
  intros Hmarshal Hvalid Herrors. unfold validateConfig, fatalf.
  by rewrite Hmarshal, Hvalid, bool_decide_eq_false_2.
Qed.

(** X18. [validateConfig] returns exactly when the configuration can be
    converted and the validation finds no violation; it then has logged one
    line. In every case it writes no file and creates no directory. *)
Theorem validateConfig_returns_iff_valid
    (uri : string) (config : Config) (w : World) :
  let r := validateConfig uri config w in
  (r.2 = Returned ()
   ↔ ∃ document, json_Marshal config = inl document
       ∧ gojsonschema_Validate uri document w = inl [])
  ∧ (r.2 = Returned () → logs r.1 = logs w ++ ["Config is valid!"])
  ∧ files r.1 = files w ∧ dirs r.1 = dirs w.
Proof.
  unfold validateConfig, fatalf.
  destruct (json_Marshal config) as [document|err].
  - destruct (gojsonschema_Validate uri document w) as [errors|err] eqn:Hvalid.
    + case_bool_decide as Herrors; simpl.
      * subst errors. split_and!; try done. split; [|done].
        intros _. by exists document.
      * pose proof (logged_lines (λ desc, "- " +:+ desc) errors w) as (Hf & Hd & _).
        split_and!; try done. split; [done|].
        intros (d & [= <-] & Hd'). rewrite Hvalid in Hd'. by simplify_eq.
    + simpl. split_and!; try done. split; [done|].
      intros (d & [= <-] & Hd'). by rewrite Hvalid in Hd'.
  - simpl. split_and!; try done. split; [done|]. by intros (d & ? & _).
Qed.

(** X19. When the validation finds violations, every one of them is logged,
    in order, each on a line of its own, before the process ends with the
    summary; no file is written. *)
Theorem validateConfig_reports_every_violation
    (uri document : string) (config : Config) (errors : list string) (w : World) :
  let msg := "Config validation failed, please fix the resulted error and try again" in
  json_Marshal config = inl document →
  gojsonschema_Validate uri document w = inl errors →
  errors ≠ [] →
  ∃ w', validateConfig uri config w = (w', Exited msg)
    ∧ logs w' = logs w ++ ((λ desc, "- " +:+ desc) <$> errors) ++ [msg]
    ∧ files w' = files w.
Proof.
  intros msg Hmarshal Hvalid Herrors. unfold validateConfig, fatalf.
  rewrite Hmarshal, Hvalid, bool_decide_eq_false_2 by done.
  eexists. split; [done|].
  pose proof (logged_lines (λ desc, "- " +:+ desc) errors w) as (Hf & _ & Hl).
  simpl. by rewrite Hl, Hf, <-app_assoc.
Qed.

(** X20. Without [--template], a configuration file that is not there ends
    the process at once: the failure to open it is the message, nothing is
    fetched and nothing is written. *)
Theorem missing_config_file_is_fatal
    (configFilePath outputDir : string)
    (pageOrder : Config → list string)
    (entryOrder : Config → list (string * Value)) (w : World) :
  let msg := "Error reading config file: open " +:+ configFilePath
             +:+ ": no such file or directory" in
  files w !! configFilePath = None →
  mainFromArgs EmptyString configFilePath outputDir pageOrder entryOrder w
  = (logPrintln msg w, Fatal msg).
Proof.
  intros msg Hmissing. unfold mainFromArgs, readConfig, fatalf.
  rewrite bool_decide_eq_false_2 by (by intros ?).
  by rewrite os_ReadFile_missing.
Qed.

(** X21. With [--template] the program only fetches the configuration of
    the template: the other arguments play no part, the file written is
    [config.yml] whatever [--config] says, and nothing else is written. *)
Theorem template_mode_writes_only_config_yml
    (templateId configFilePath outputDir configFilePath' outputDir' : string)
    (pageOrder pageOrder' : Config → list string)
    (entryOrder entryOrder' : Config → list (string * Value)) (w : World) :
  templateId ≠ EmptyString →
  let r := mainFromArgs templateId configFilePath outputDir pageOrder entryOrder w in
  r = mainFromArgs templateId configFilePath' outputDir' pageOrder' entryOrder' w
  ∧ mayChange ["config.yml"] w r.1
  ∧ ∀ msg, r.2 ≠ Crash msg.
Proof.
  intros Hid. unfold mainFromArgs. rewrite bool_decide_eq_true_2 by done.
  split; [done|].
  set (w1 := logPrintln ("Fetching template configuration for id: " +:+ templateId) w).
  set (url := rawBase +:+ "templates/" +:+ templateId +:+ "/config.yml").
  pose proof (downloadFile_mayChange url "config.yml" w1) as Hdl.
  assert (Hw1 : mayChange ["config.yml"] w w1).
  { split_and!; [done|by apply prefix_app_r|done]. }
  destruct (downloadFile url "config.yml" w1) as [w2 [[]|msg]]; simpl in *.
  - split; [|done]. apply (mayChange_trans _ _ w2); [by apply (mayChange_trans _ _ w1)|].
    split_and!; [done|by apply prefix_app_r|done].
  - split; [|done]. by apply (mayChange_trans _ _ w1).
Qed.

(** X22. A configuration that the schema rejects ends the process before
    the template is fetched: the exit is fatal with the summary of the
    validation, and no file is written. *)
Theorem rejected_config_renders_nothing
    (configFilePath outputDir text document : string) (config : Config)
    (errors : list string)
    (pageOrder : Config → list string)
    (entryOrder : Config → list (string * Value)) (w : World) :
  let uri := rawBase +:+ "templates/" +:+ TemplateId config +:+ "/schema.json" in
  let r := mainFromArgs EmptyString configFilePath outputDir pageOrder entryOrder w in
  files w !! configFilePath = Some text →
  yaml_Unmarshal text = inl config →
  json_Marshal config = inl document →
  gojsonschema_Validate uri document w = inl errors →
  errors ≠ [] →
  r.2 = Fatal "Config validation failed, please fix the resulted error and try again"
  ∧ files r.1 = files w
  ∧ dirs r.1 = dirs w.
Proof.
  intros uri r Hfile Hyaml Hmarshal Hvalid Herrors.
  unfold r, mainFromArgs, readConfig, os_ReadFile.
  rewrite bool_decide_eq_false_2 by (by intros ?).
  rewrite Hfile, Hyaml. fold uri.
  pose proof (validateConfig_rejected uri document config errors w
                Hmarshal Hvalid Herrors) as Hexit.
  pose proof (validateConfig_frame uri config w) as [Hfiles Hdirs].
  destruct (validateConfig uri config w) as [w' out]. simpl in *. by subst out.
Qed.

End Modes.

(** ** The statements above on the sample platform and network *)

Lemma merge_order_is_irrelevant_witness :
  foldl (λ data kv, <[kv.1 := kv.2]> data)
    {[ "base" := VMap {[ "site" := VString "MySite" ]} ]}
    (reverse (map_to_list
       (list_to_map [("title", VString "Hi"); ("base", VString "mine")])))
  = pageData {[ "site" := VString "MySite" ]}
      (VMap (list_to_map [("title", VString "Hi"); ("base", VString "mine")])).
Proof.
  refine (proj1 (merge_order_is_irrelevant {[ "site" := VString "MySite" ]}
                   (list_to_map [("title", VString "Hi"); ("base", VString "mine")])
                   _ _)).
  apply reverse_Permutation.
Defined.

Lemma generateCollections_panics_only_on_non_mappings_witness :
  ∃ entry, entry ∈ [("posts", VNil)]
    ∧ ((asMap entry.2 = None
        ∧ "interface conversion: interface {} is nil, not map[string]interface {}"
          = conversionPanic entry.2)
       ∨ ∃ item, item ∈ collectionItems entry.2
           ∧ asMap item = None
           ∧ "interface conversion: interface {} is nil, not map[string]interface {}"
             = conversionPanic item).
Proof.
  refine (@generateCollections_panics_only_on_non_mappings Sample.platform
            Sample.nullCollectionConfig "tpl/pages" "out" [("posts", VNil)]
            Sample.postsWorld _ _).
  vm_compute. reflexivity.
Defined.

Lemma generatePages_success_writes_and_logs_every_page_witness :
  logs (@generatePages Sample.platform Sample.siteConfig "tpl/pages" "out" ["index"]
          Sample.siteWorld).1
  = logs Sample.siteWorld
    ++ ((λ p, "Generated page: " +:+ @pageOutput Sample.platform "out" p) <$> ["index"]).
Proof.
  refine (proj1 (@generatePages_success_writes_and_logs_every_page Sample.platform
                   Sample.siteConfig "tpl/pages" "out" ["index"] Sample.siteWorld _ _)).
  vm_compute. reflexivity.
Defined.

Lemma create_failure_is_reported_witness :
  let w := Sample.world [("tpl/pages/index.html", "{{.title}}")]
             ["tpl"; "tpl/pages"; "out"; "out/index.html"] in
  @generatePages Sample.platform Sample.plainConfig "tpl/pages" "out"
    ([] ++ "index" :: ["about"]) w
  = (w, RError ("error creating output file " +:+ @pageOutput Sample.platform "out" "index"
                +:+ ": " +:+ "open out/index.html: is a directory")).
Proof.
  intros w.
  refine (@create_failure_is_reported Sample.platform Sample.plainConfig
            "tpl/pages" "out" [] ["about"] "index" w w
            [("index.html", "{{.title}}")] _ _ _ _);
    vm_compute; reflexivity.
Defined.

Lemma collection_with_items_needs_its_template_witness :
  ∃ cause,
    @generateCollection Sample.platform Sample.postsConfig "tpl/pages" "out"
      ("gallery", VMap (list_to_map [("items", VSlice [])])) Sample.postsWorld
    = (Sample.postsWorld,
       RError ("error parsing templates for collection " +:+ "gallery"
               +:+ ": " +:+ cause)).
Proof.
  refine (@collection_with_items_needs_its_template Sample.platform Sample.postsConfig
            "tpl/pages" "out" "gallery" (list_to_map [("items", VSlice [])]) []
            Sample.postsWorld _ _);
    vm_compute; reflexivity.
Defined.

Lemma last_item_naming_a_file_decides_it_witness :
  let first := Sample.obj [("output_file", VString "x.html"); ("title", VString "A")] in
  let second : gmap string Value :=
    list_to_map [("output_file", VString "x.html"); ("title", VString "B")] in
  files (forEach (@generateItem Sample.platform Sample.postsConfig "out"
                    [("posts.html", "{{.title}}")])
           ([first] ++ VMap second :: []) Sample.postsWorld).1
    !! @filepath_Join Sample.platform "out" "x.html"
  = Some (@executeItem Sample.platform Sample.postsConfig
            [("posts.html", "{{.title}}")] (VMap second)).1.
Proof.
  intros first second.
  refine (@last_item_naming_a_file_decides_it Sample.platform Sample.postsConfig "out"
            [("posts.html", "{{.title}}")] [first] [] second "x.html"
            Sample.postsWorld _ _ _ _).
  - vm_compute. reflexivity.
  - vm_compute. reflexivity.
  - vm_compute. by intros ?%elem_of_nil.
Defined.

Lemma main_succeeds_iff_generators_do_witness :
  ∃ w1 w2,
    @generatePages Sample.platform Sample.siteConfig ("tpl" +:+ "/pages") "out" ["index"]
      (@copyAssets Sample.platform ("tpl" +:+ "/pages") "out"
         (Sample.mkdirAll "out" Sample.siteWorld).1).1 = (w1, RNil)
    ∧ @generateCollections Sample.platform Sample.siteConfig ("tpl" +:+ "/pages") "out"
        [] w1 = (w2, RNil)
    ∧ (@main Sample.platform Sample.siteConfig "tpl" "out" ["index"] []
         Sample.siteWorld).1
      = Sample.removeAll "tpl"
          (logPrintln "Portfolio generation completed successfully!" w2).
Proof.
  refine (proj1 (@main_succeeds_iff_generators_do Sample.platform Sample.siteConfig
                   "tpl" "out" ["index"] [] Sample.siteWorld
                   (Sample.mkdirAll "out" Sample.siteWorld).1 _ _) _).
  - vm_compute. reflexivity.
  - vm_compute. reflexivity.
Defined.


Lemma downloadFile_returns_only_with_the_body_witness :
  ∃ resp,
    SampleNet.get (rawBase +:+ "templates/0001/config.yml") SampleNet.emptyDisk
    = inl resp
    ∧ StatusCode resp = 200%Z ∧ BodyError resp = None
    ∧ files (@downloadFile Sample.platform SampleNet.services
               (rawBase +:+ "templates/0001/config.yml") "config.yml"
               SampleNet.emptyDisk).1
      = <[ "config.yml" := Body resp ]> (files SampleNet.emptyDisk)
    ∧ dirs (@downloadFile Sample.platform SampleNet.services
              (rawBase +:+ "templates/0001/config.yml") "config.yml"
              SampleNet.emptyDisk).1 = dirs SampleNet.emptyDisk
    ∧ logs (@downloadFile Sample.platform SampleNet.services
              (rawBase +:+ "templates/0001/config.yml") "config.yml"
              SampleNet.emptyDisk).1 = logs SampleNet.emptyDisk.
Proof.
  refine (@downloadFile_returns_only_with_the_body Sample.platform SampleNet.services
            (rawBase +:+ "templates/0001/config.yml") "config.yml"
            SampleNet.emptyDisk _ _).
  vm_compute. reflexivity.
Defined.

Lemma downloaded_file_lands_under_template_path_witness :
  let r := @downloadTemplateFile Sample.platform SampleNet.services
             "tmp/t/templates/0001" "templates/0001/"
             "templates/0001/pages/index.html" SampleNet.emptyDisk in
  ∃ wd resp,
    Sample.mkdirAll (SampleNet.dirOf (Sample.join "tmp/t/templates/0001"
                       (TrimPrefix "templates/0001/pages/index.html" "templates/0001/")))
      SampleNet.emptyDisk = (wd, None)
    ∧ SampleNet.get (rawBase +:+ "templates/0001/pages/index.html") wd = inl resp
    ∧ StatusCode resp = 200%Z
    ∧ files r.1
      = <[ Sample.join "tmp/t/templates/0001"
             (TrimPrefix "templates/0001/pages/index.html" "templates/0001/")
           := Body resp ]> (files wd)
    ∧ logs r.1
      = logs wd ++ ["Downloaded: "
                    +:+ TrimPrefix "templates/0001/pages/index.html" "templates/0001/"].
Proof.
  intros r.
  refine (@downloaded_file_lands_under_template_path Sample.platform SampleNet.services
            "tmp/t/templates/0001" "templates/0001/"
            "templates/0001/pages/index.html" SampleNet.emptyDisk r.1 _).
  vm_compute. reflexivity.
Defined.

Lemma template_without_files_is_fatal_witness :
  (@downloadTemplateFromGitHub Sample.platform SampleNet.services "0003"
     SampleNet.emptyDisk).2
  = Exited "no files found for template '0003'".
Proof.
  destruct (@template_without_files_is_fatal Sample.platform SampleNet.services
              "0003" "tmp/portfolio-template-1" SampleNet.emptyDisk
              (match SampleNet.mkdirTemp EmptyString "portfolio-template-*"
                       SampleNet.emptyDisk with
               | inl (_, w0) => w0
               | inr _ => SampleNet.emptyDisk
               end)
              {| StatusCode := 200; Body := "tree"; BodyError := None |}
              SampleNet.tree) as [Hrun _].
  - vm_compute. reflexivity.
  - vm_compute. reflexivity.
  - reflexivity.
  - vm_compute. reflexivity.
  - intros item relPath Hitem Hblob Hpath.
    apply stripPrefix_Some in Hpath.
    unfold SampleNet.tree in Hitem.
    repeat (apply elem_of_cons in Hitem as [->|Hitem];
            [vm_compute in Hpath; discriminate Hpath|]).
    by apply elem_of_nil in Hitem.
  - rewrite Hrun. reflexivity.
Defined.

Lemma downloaded_template_path_witness :
  let r := @downloadTemplateFromGitHub Sample.platform SampleNet.services "0001"
             SampleNet.emptyDisk in
  ∃ tempDir w0 resp tree,
    SampleNet.mkdirTemp EmptyString "portfolio-template-*" SampleNet.emptyDisk
    = inl (tempDir, w0)
    ∧ "tmp/portfolio-template-1/templates/0001"
      = Sample.join (Sample.join tempDir "templates") "0001"
    ∧ SampleNet.get treeURL
        (logPrintln ("Downloading template '" +:+ "0001" +:+ "'...") w0) = inl resp
    ∧ StatusCode resp = 200%Z
    ∧ SampleNet.decodeTree resp = inl tree
    ∧ selectTemplateFiles (templatePrefixOf "0001") tree ≠ []
    ∧ last (logs r.1)
      = Some ("Template downloaded to: " +:+ "tmp/portfolio-template-1/templates/0001").
Proof.
  intros r.
  refine (@downloaded_template_path Sample.platform SampleNet.services "0001"
            "tmp/portfolio-template-1/templates/0001" SampleNet.emptyDisk r.1 _).
  vm_compute. reflexivity.
Defined.

Lemma validateConfig_reports_every_violation_witness :
  let config := {| TemplateId := "0002"; Base := None; Pages := ∅;
                   Collections := None |} in
  ∃ w',
    @validateConfig SampleNet.services (rawBase +:+ "templates/0002/schema.json")
      config SampleNet.rejectedDisk
    = (w', Exited "Config validation failed, please fix the resulted error and try again")
    ∧ logs w'
      = logs SampleNet.rejectedDisk
        ++ ((λ desc, "- " +:+ desc)
              <$> ["(root): pages is required"; "(root): base is required"])
        ++ ["Config validation failed, please fix the resulted error and try again"]
    ∧ files w' = files SampleNet.rejectedDisk.
Proof.
  intros config.
  refine (@validateConfig_reports_every_violation SampleNet.services
            (rawBase +:+ "templates/0002/schema.json") "{template_id: 0002}" config
            ["(root): pages is required"; "(root): base is required"]
            SampleNet.rejectedDisk _ _ _).
  - vm_compute. reflexivity.
  - vm_compute. reflexivity.
  - discriminate.
Defined.

Lemma missing_config_file_is_fatal_witness :
  (@mainFromArgs Sample.platform SampleNet.services EmptyString "config.yml" "out"
     (λ _, []) (λ _, []) SampleNet.emptyDisk).2
  = Fatal ("Error reading config file: open " +:+ "config.yml"
           +:+ ": no such file or directory").
Proof.
  rewrite (@missing_config_file_is_fatal Sample.platform SampleNet.services
             "config.yml" "out" (λ _, []) (λ _, []) SampleNet.emptyDisk).
  - reflexivity.
  - vm_compute. reflexivity.
Defined.

Lemma template_mode_writes_only_config_yml_witness :
  @mainFromArgs Sample.platform SampleNet.services "0001" "mine.yml" "site"
    (λ _, []) (λ _, []) SampleNet.emptyDisk
  = @mainFromArgs Sample.platform SampleNet.services "0001" "config.yml" "."
      (λ _, ["index"]) (λ _, []) SampleNet.emptyDisk.
Proof.
  refine (proj1 (@template_mode_writes_only_config_yml Sample.platform
                   SampleNet.services "0001" "mine.yml" "site" "config.yml" "."
                   (λ _, []) (λ _, ["index"]) (λ _, []) (λ _, [])
                   SampleNet.emptyDisk _)).
  discriminate.
Defined.

Lemma rejected_config_renders_nothing_witness :
  let r := @mainFromArgs Sample.platform SampleNet.services EmptyString "config.yml"
             "out" (λ _, []) (λ _, []) SampleNet.rejectedDisk in
  r.2 = Fatal "Config validation failed, please fix the resulted error and try again"
  ∧ files r.1 = files SampleNet.rejectedDisk
  ∧ dirs r.1 = dirs SampleNet.rejectedDisk.
Proof.
  refine (@rejected_config_renders_nothing Sample.platform SampleNet.services
            "config.yml" "out" "empty" "{template_id: 0002}"
            {| TemplateId := "0002"; Base := None; Pages := ∅; Collections := None |}
            ["(root): pages is required"; "(root): base is required"]
            (λ _, []) (λ _, []) SampleNet.rejectedDisk _ _ _ _ _).
  - vm_compute. reflexivity.
  - vm_compute. reflexivity.
  - vm_compute. reflexivity.
  - vm_compute. reflexivity.
  - discriminate.
Defined.

Lemma generatePages_touches_only_page_outputs_witness :
  files (@generatePages Sample.platform Sample.siteConfig "tpl/pages" "out" ["index"]
           Sample.siteWorld).1 !! "tpl/pages/base.html"
  = files Sample.siteWorld !! "tpl/pages/base.html".
Proof.
  refine (proj2 (proj2 (@generatePages_touches_only_page_outputs Sample.platform
                   Sample.siteConfig "tpl/pages" "out" ["index"] Sample.siteWorld))
            "tpl/pages/base.html" _).
  apply (bool_decide_unpack _). vm_compute. reflexivity.
Defined.

Lemma generateCollections_touches_only_item_outputs_witness :
  files (@generateCollections Sample.platform Sample.scalarItemConfig "tpl/pages" "out"
           (map_to_list (default ∅ (Collections Sample.scalarItemConfig)))
           Sample.postsWorld).1 !! "tpl/pages/posts.html"
  = files Sample.postsWorld !! "tpl/pages/posts.html".
Proof.
  refine (proj2 (proj2 (@generateCollections_touches_only_item_outputs Sample.platform
                   Sample.scalarItemConfig "tpl/pages" "out"
                   (map_to_list (default ∅ (Collections Sample.scalarItemConfig)))
                   Sample.postsWorld))
            "tpl/pages/posts.html" _).
  apply (bool_decide_unpack _). vm_compute. reflexivity.
Defined.

Lemma downloadFile_touches_only_its_target_witness :
  let r := @downloadFile Sample.platform SampleNet.services
             (rawBase +:+ "templates/0404/config.yml") "config.yml"
             SampleNet.siteDisk in
  files r.1 = files SampleNet.siteDisk
  ∧ r.2 = Exited ("Failed to download file: " +:+ rawBase
                  +:+ "templates/0404/config.yml" +:+ ", status code: "
                  +:+ pretty 404%Z).
Proof.
  refine (proj2 (@downloadFile_touches_only_its_target Sample.platform
                   SampleNet.services (rawBase +:+ "templates/0404/config.yml")
                   "config.yml" SampleNet.siteDisk)
            {| StatusCode := 404; Body := "404: Not Found"; BodyError := None |} _ _).
  - vm_compute. reflexivity.
  - discriminate.
Defined.

Lemma validateConfig_returns_iff_valid_witness :
  logs (@validateConfig SampleNet.services (rawBase +:+ "templates/0001/schema.json")
          Sample.siteConfig SampleNet.siteDisk).1
  = logs SampleNet.siteDisk ++ ["Config is valid!"].
Proof.
  refine (proj1 (proj2 (@validateConfig_returns_iff_valid SampleNet.services
                   (rawBase +:+ "templates/0001/schema.json") Sample.siteConfig
                   SampleNet.siteDisk)) _).
  vm_compute. reflexivity.
Defined.
